(** * VA image wrapper and task role flags of gst-libs/mfx

    A shallow embedding of [gst-libs/mfx/gstmfxutils_vaapi.c] (the
    reference-counted wrapper around a VA image: creation, adoption of a
    foreign descriptor, map/unmap, plane accessors, teardown) and of the
    [GstMfxTaskType] enumeration of [gstmfxtask.h].

    A [VaapiImage *] argument is an [option VaapiImage] ([None] is the null
    pointer) and a function that stores through the pointer gives back the
    object as it is afterwards.  Calls into libva, the display lock, the
    display reference count and [g_warning] are recorded as a list of events,
    in the order the C code performs them; the answers of libva and of the
    allocator come from a [Platform], which the development is parametric
    in. *)

From Stdlib Require Import NArith ZArith List Bool Lia.
Import ListNotations.

Set Implicit Arguments.

Local Open Scope N_scope.

(** ** Scalar types *)

Definition guint := N.
Definition gboolean := bool.
Definition TRUE : gboolean := true.
Definition FALSE : gboolean := false.

(** Addresses ([guchar *], [GstMfxDisplay *]); [NULL] is address zero. *)
Definition pointer := N.
Definition NULL : pointer := 0%N.

(** Values of [va/va.h] and [gst/video/video-format.h]. *)
Definition VAStatus := Z.
Definition VA_STATUS_SUCCESS : VAStatus := 0%Z.
Definition VA_STATUS_ERROR_OPERATION_FAILED : VAStatus := 1%Z.

Definition VAGenericID := N.
Definition VAImageID := VAGenericID.
Definition VABufferID := VAGenericID.
Definition VADisplay := pointer.
Definition VA_INVALID_ID : VAGenericID := 0xffffffff%N.

Definition VA_FOURCC_NV12 : N := 0x3231564E%N.
Definition VA_FOURCC_YV12 : N := 0x32315659%N.
Definition VA_LSB_FIRST : N := 1%N.

Definition GstVideoFormat := N.
Definition GST_VIDEO_FORMAT_NV12 : GstVideoFormat := 23%N.

(** ** The VA image descriptor *)

Module VA.

Record VAImageFormat := {
  fourcc         : N;
  byte_order     : N;
  bits_per_pixel : N;
  depth          : N;
  red_mask       : N;
  green_mask     : N;
  blue_mask      : N;
  alpha_mask     : N
}.

(** [pitches] and [offsets] are the arrays [uint32_t pitches[3]] and
    [uint32_t offsets[3]].  The palette fields are never read by the image
    wrapper and are left out. *)
Record VAImage := {
  image_id   : VAImageID;
  format     : VAImageFormat;
  buf        : VABufferID;
  width      : N;
  height     : N;
  data_size  : N;
  num_planes : N;
  pitches    : list N;
  offsets    : list N
}.

Definition zero_format : VAImageFormat :=
  {| fourcc := 0; byte_order := 0; bits_per_pixel := 0; depth := 0;
     red_mask := 0; green_mask := 0; blue_mask := 0; alpha_mask := 0 |}.

Definition zero_image : VAImage :=
  {| image_id := 0; format := zero_format; buf := 0; width := 0;
     height := 0; data_size := 0; num_planes := 0;
     pitches := [0; 0; 0]%N; offsets := [0; 0; 0]%N |}.

Definition set_image_id (im : VAImage) (id : VAImageID) : VAImage :=
  {| image_id := id; format := format im; buf := buf im;
     width := width im; height := height im; data_size := data_size im;
     num_planes := num_planes im; pitches := pitches im;
     offsets := offsets im |}.

Definition set_buf (im : VAImage) (b : VABufferID) : VAImage :=
  {| image_id := image_id im; format := format im; buf := b;
     width := width im; height := height im; data_size := data_size im;
     num_planes := num_planes im; pitches := pitches im;
     offsets := offsets im |}.

End VA.

(** [a[i]] for a C array: [None] is a read past the end of the array, which
    C leaves undefined. *)
Definition array_get (a : list N) (i : guint) : option N :=
  nth_error a (N.to_nat i).

(** ** The image object *)

(** Modelled from the spec: RefCountedObject, whose implementation
    (gstmfxminiobject.c) is not part of the sources at hand.  The object
    header carries the atomic reference count. *)
Record GstMfxMiniObject := {
  ref_count : Z;
  flags     : N
}.

Record VaapiImage := {
  parent_instance : GstMfxMiniObject;
  display         : pointer;
  internal_format : GstVideoFormat;
  image_data      : pointer;
  width           : guint;
  height          : guint;
  image           : VA.VAImage
}.

Definition set_parent_instance (im : VaapiImage) (p : GstMfxMiniObject) :=
  {| parent_instance := p; display := display im;
     internal_format := internal_format im; image_data := image_data im;
     width := width im; height := height im; image := image im |}.

Definition set_display (im : VaapiImage) (d : pointer) :=
  {| parent_instance := parent_instance im; display := d;
     internal_format := internal_format im; image_data := image_data im;
     width := width im; height := height im; image := image im |}.

Definition set_internal_format (im : VaapiImage) (f : GstVideoFormat) :=
  {| parent_instance := parent_instance im; display := display im;
     internal_format := f; image_data := image_data im;
     width := width im; height := height im; image := image im |}.

Definition set_image_data (im : VaapiImage) (p : pointer) :=
  {| parent_instance := parent_instance im; display := display im;
     internal_format := internal_format im; image_data := p;
     width := width im; height := height im; image := image im |}.

Definition set_width (im : VaapiImage) (w : guint) :=
  {| parent_instance := parent_instance im; display := display im;
     internal_format := internal_format im; image_data := image_data im;
     width := w; height := height im; image := image im |}.

Definition set_height (im : VaapiImage) (h : guint) :=
  {| parent_instance := parent_instance im; display := display im;
     internal_format := internal_format im; image_data := image_data im;
     width := width im; height := h; image := image im |}.

Definition set_image (im : VaapiImage) (va : VA.VAImage) :=
  {| parent_instance := parent_instance im; display := display im;
     internal_format := internal_format im; image_data := image_data im;
     width := width im; height := height im; image := va |}.

(** The [va_format] that [vaapi_image_create] asks the driver for: the
    fields the initializer names, the others zero. *)
Definition create_va_format : VA.VAImageFormat :=
  {| VA.fourcc := VA_FOURCC_NV12; VA.byte_order := VA_LSB_FIRST;
     VA.bits_per_pixel := 8; VA.depth := 8;
     VA.red_mask := 0; VA.green_mask := 0; VA.blue_mask := 0;
     VA.alpha_mask := 0 |}.

(** The object [vaapi_image_new] hands to [vaapi_image_create]: zeroed
    storage holding one reference, the display set, both handles of the
    descriptor invalid. *)
Definition blank_image (disp : pointer) : VaapiImage :=
  {| parent_instance := {| ref_count := 1; flags := 0 |};
     display := disp; internal_format := 0; image_data := NULL;
     width := 0; height := 0;
     image := VA.set_buf (VA.set_image_id VA.zero_image VA_INVALID_ID)
                VA_INVALID_ID |}.

(** An object once its last reference is dropped. *)
Definition drop_last_ref (img : VaapiImage) : VaapiImage :=
  set_parent_instance img
    {| ref_count := 0; flags := flags (parent_instance img) |}.

(** ** Events and the platform *)

Inductive event :=
| EvLock (d : pointer)
| EvUnlock (d : pointer)
| EvCreateImage (dpy : VADisplay) (fourcc : N) (w h : guint)
    (status : VAStatus)
| EvDestroyImage (dpy : VADisplay) (id : VAImageID) (status : VAStatus)
| EvMapBuffer (dpy : VADisplay) (buf : VABufferID) (status : VAStatus)
| EvUnmapBuffer (dpy : VADisplay) (buf : VABufferID) (status : VAStatus)
| EvDisplayRef (d : pointer)
| EvDisplayUnref (d : pointer)
| EvWarning (id : VAImageID)
| EvFree.

(** What the code calls but does not define: the four libva entry points,
    the macro giving the native handle of a display, and the allocator
    behind [gst_mfx_mini_object_new0].  [St] is the state of the platform.
    [vaCreateImage] and [vaMapBuffer] receive the address of a field of the
    image; they get the field's current content and return its content
    after the call. *)
Record Platform (St : Type) := {
  GST_MFX_DISPLAY_VADISPLAY : pointer -> VADisplay;
  vaCreateImage :
    VADisplay -> VA.VAImageFormat -> guint -> guint -> VA.VAImage -> St ->
    VAStatus * VA.VAImage * St;
  vaDestroyImage : VADisplay -> VAImageID -> St -> VAStatus * St;
  vaMapBuffer :
    VADisplay -> VABufferID -> pointer -> St -> VAStatus * pointer * St;
  vaUnmapBuffer : VADisplay -> VABufferID -> St -> VAStatus * St;
  slice_alloc : St -> bool * St
}.

(** ** A state-and-trace monad *)

Definition M (St A : Type) : Type := St -> A * list event * St.

Definition ret {St A} (a : A) : M St A := fun s => (a, [], s).

Definition bind {St A B} (m : M St A) (k : A -> M St B) : M St B :=
  fun s =>
    let '(a, e1, s1) := m s in
    let '(b, e2, s2) := k a s1 in
    (b, e1 ++ e2, s2).

Definition emit {St} (e : event) : M St unit := fun s => (tt, [e], s).

Definition result {St A} (r : A * list event * St) : A := fst (fst r).
Definition events {St A} (r : A * list event * St) : list event :=
  snd (fst r).
Definition final {St A} (r : A * list event * St) : St := snd r.

Declare Scope monad_scope.
Delimit Scope monad_scope with monad.

Notation "x <- c1 ;; c2" := (bind c1 (fun x => c2))
  (at level 61, c1 at next level, right associativity) : monad_scope.
Notation "' pat <- c1 ;; c2" :=
  (bind c1 (fun x => match x with pat => c2 end))
  (at level 61, pat pattern, c1 at next level, right associativity)
  : monad_scope.
Notation "c1 ;; c2" := (bind c1 (fun _ => c2))
  (at level 61, right associativity) : monad_scope.

Local Open Scope monad_scope.

(** [g_return_val_if_fail (expr, val)]: leave with [val] unless [expr]
    holds.  The critical message GLib prints on that path is diagnostic
    output and is not recorded. *)
Definition g_return_val_if_fail {A} (expr : bool) (val : A) (rest : A) : A :=
  if expr then rest else val.

(** Modelled from the spec: the status check of a driver call
    (vaapi_check_status is defined outside the sources at hand); a driver
    call failed when its status is not success. *)
Definition vaapi_check_status (status : VAStatus) : gboolean :=
  Z.eqb status VA_STATUS_SUCCESS.

Section Image.

Variable St : Type.
Variable P : Platform St.

(** *** Calls out of the file *)

(** Modelled from the spec: acquiring the lock of the HardwareContext (the
    macro is defined in gstmfxdisplay.h, which is not part of the sources at
    hand). *)
Definition GST_MFX_DISPLAY_LOCK (d : pointer) : M St unit :=
  emit (EvLock d).

(** Modelled from the spec: releasing the lock of the HardwareContext
    (gstmfxdisplay.h, as for the lock). *)
Definition GST_MFX_DISPLAY_UNLOCK (d : pointer) : M St unit :=
  emit (EvUnlock d).

(** Modelled from the spec: [ref] on the HardwareContext takes a reference
    and returns the same object (gstmfxdisplay.c is not part of the sources
    at hand). *)
Definition gst_mfx_display_ref (d : pointer) : M St pointer :=
  emit (EvDisplayRef d) ;; ret d.

(** Modelled from the spec: [unref] on the HardwareContext gives a
    reference back (gstmfxdisplay.c, as for [ref]). *)
Definition gst_mfx_display_unref (d : pointer) : M St unit :=
  emit (EvDisplayUnref d).

Definition va_create_image (dpy : VADisplay) (fmt : VA.VAImageFormat)
    (w h : guint) (cur : VA.VAImage) : M St (VAStatus * VA.VAImage) :=
  fun s =>
    let '(status, va, s') := vaCreateImage P dpy fmt w h cur s in
    ((status, va), [EvCreateImage dpy (VA.fourcc fmt) w h status], s').

Definition va_destroy_image (dpy : VADisplay) (id : VAImageID)
  : M St VAStatus :=
  fun s =>
    let '(status, s') := vaDestroyImage P dpy id s in
    (status, [EvDestroyImage dpy id status], s').

Definition va_map_buffer (dpy : VADisplay) (b : VABufferID) (cur : pointer)
  : M St (VAStatus * pointer) :=
  fun s =>
    let '(status, p, s') := vaMapBuffer P dpy b cur s in
    ((status, p), [EvMapBuffer dpy b status], s').

Definition va_unmap_buffer (dpy : VADisplay) (b : VABufferID)
  : M St VAStatus :=
  fun s =>
    let '(status, s') := vaUnmapBuffer P dpy b s in
    (status, [EvUnmapBuffer dpy b status], s').

Definition g_warning (id : VAImageID) : M St unit := emit (EvWarning id).

(** *** Accessors *)

Definition vaapi_image_get_id (pimage : option VaapiImage) : VAImageID :=
  match pimage with
  | None => VA_INVALID_ID
  | Some img =>
      let va_image := img.(image) in
      VA.image_id va_image
  end.

(** [va_image] is the content of the caller's descriptor, [None] when the
    caller passes a null pointer; the second component is its content
    afterwards. *)
Definition vaapi_image_get_image (pimage : option VaapiImage)
    (va_image : option VA.VAImage) : gboolean * option VA.VAImage :=
  match pimage with
  | None => (FALSE, va_image)
  | Some img =>
      let va_image :=
        match va_image with
        | Some _ => Some img.(image)
        | None => None
        end in
      (TRUE, va_image)
  end.

Definition _vaapi_image_set_image (img : VaapiImage)
    (va_image : VA.VAImage) : gboolean * VaapiImage :=
  let img := set_internal_format img GST_VIDEO_FORMAT_NV12 in
  let img := set_image img va_image in
  let img := set_width img (VA.width va_image) in
  let img := set_height img (VA.height va_image) in
  (TRUE, img).

Definition vaapi_image_get_format (pimage : option VaapiImage)
  : GstVideoFormat :=
  match pimage with
  | None => 0
  | Some img => img.(internal_format)
  end.

Definition vaapi_image_get_width (pimage : option VaapiImage) : guint :=
  match pimage with
  | None => 0
  | Some img => img.(width)
  end.

Definition vaapi_image_get_height (pimage : option VaapiImage) : guint :=
  match pimage with
  | None => 0
  | Some img => img.(height)
  end.

(** [pwidth] and [pheight] are the contents of the two return locations
    ([None] for a null location); the result is their content afterwards. *)
Definition vaapi_image_get_size (pimage : option VaapiImage)
    (pwidth pheight : option guint) : option guint * option guint :=
  match pimage with
  | None => (pwidth, pheight)
  | Some img =>
      let pwidth :=
        match pwidth with Some _ => Some img.(width) | None => None end in
      let pheight :=
        match pheight with Some _ => Some img.(height) | None => None end
      in
      (pwidth, pheight)
  end.

Definition _vaapi_image_is_mapped (img : VaapiImage) : gboolean :=
  negb (img.(image_data) =? NULL).

Definition vaapi_image_is_mapped (pimage : option VaapiImage) : gboolean :=
  match pimage with
  | None => FALSE
  | Some img => _vaapi_image_is_mapped img
  end.

(** *** Map and unmap *)

Definition _vaapi_image_map (img : VaapiImage)
  : M St (gboolean * VaapiImage) :=
  if _vaapi_image_is_mapped img then ret (TRUE, img)
  else
    GST_MFX_DISPLAY_LOCK img.(display) ;;
    '(status, data) <-
      va_map_buffer (GST_MFX_DISPLAY_VADISPLAY P img.(display))
        (VA.buf img.(image)) img.(image_data) ;;
    let img := set_image_data img data in
    GST_MFX_DISPLAY_UNLOCK img.(display) ;;
    if negb (vaapi_check_status status) then ret (FALSE, img)
    else ret (TRUE, img).

Definition vaapi_image_map (pimage : option VaapiImage)
  : M St (gboolean * option VaapiImage) :=
  match pimage with
  | None => ret (FALSE, None)
  | Some img =>
      '(ok, img) <- _vaapi_image_map img ;;
      ret (ok, Some img)
  end.

Definition _vaapi_image_unmap (img : VaapiImage)
  : M St (gboolean * VaapiImage) :=
  if negb (_vaapi_image_is_mapped img) then ret (TRUE, img)
  else
    GST_MFX_DISPLAY_LOCK img.(display) ;;
    status <-
      va_unmap_buffer (GST_MFX_DISPLAY_VADISPLAY P img.(display))
        (VA.buf img.(image)) ;;
    GST_MFX_DISPLAY_UNLOCK img.(display) ;;
    if negb (vaapi_check_status status) then ret (FALSE, img)
    else
      let img := set_image_data img NULL in
      ret (TRUE, img).

Definition vaapi_image_unmap (pimage : option VaapiImage)
  : M St (gboolean * option VaapiImage) :=
  match pimage with
  | None => ret (FALSE, None)
  | Some img =>
      '(ok, img) <- _vaapi_image_unmap img ;;
      ret (ok, Some img)
  end.

(** *** Plane accessors

    The result is [None] where the C code would read past the end of the
    three-entry [offsets] or [pitches] array. *)

Definition vaapi_image_get_plane_count (pimage : option VaapiImage)
  : guint :=
  match pimage with
  | None => 0
  | Some img => VA.num_planes img.(image)
  end.

Definition vaapi_image_get_plane (pimage : option VaapiImage)
    (plane : guint) : option pointer :=
  match pimage with
  | None => Some NULL
  | Some img =>
      g_return_val_if_fail (_vaapi_image_is_mapped img) (Some NULL)
        (g_return_val_if_fail (plane <? VA.num_planes img.(image))
           (Some NULL)
           (match array_get (VA.offsets img.(image)) plane with
            | Some off => Some (img.(image_data) + off)
            | None => None
            end))
  end.

Definition vaapi_image_get_pitch (pimage : option VaapiImage)
    (plane : guint) : option guint :=
  match pimage with
  | None => Some 0
  | Some img =>
      g_return_val_if_fail (plane <? VA.num_planes img.(image)) (Some 0)
        (array_get (VA.pitches img.(image)) plane)
  end.

Definition vaapi_image_get_data_size (pimage : option VaapiImage) : guint :=
  match pimage with
  | None => 0
  | Some img => VA.data_size img.(image)
  end.

Definition vaapi_image_get_offset (pimage : option VaapiImage)
    (plane : guint) : option guint :=
  match pimage with
  | None => Some 0
  | Some img =>
      g_return_val_if_fail (plane <? VA.num_planes img.(image)) (Some 0)
        (array_get (VA.offsets img.(image)) plane)
  end.

(** *** Reference counting *)

(** Modelled from the spec: the class descriptor of a RefCountedObject
    (gstmfxminiobject.h is not part of the sources at hand), reduced to its
    finalize callback. The class an object is created from is passed to the
    functions below instead of being stored in the object's header. *)
Record GstMfxMiniObjectClass := {
  finalize : VaapiImage -> M St VaapiImage
}.

Definition zero_object : VaapiImage :=
  {| parent_instance := {| ref_count := 0; flags := 0 |};
     display := NULL; internal_format := 0; image_data := NULL;
     width := 0; height := 0; image := VA.zero_image |}.

(** Modelled from the spec: [create] of RefCountedObject
    (gstmfxminiobject.c is not part of the sources at hand): zeroed storage
    holding one reference, or no object when the allocation fails. *)
Definition gst_mfx_mini_object_new0 (klass : GstMfxMiniObjectClass)
  : M St (option VaapiImage) :=
  fun s =>
    let '(ok, s') := slice_alloc P s in
    if ok
    then (Some (set_parent_instance zero_object
                  {| ref_count := 1; flags := 0 |}), [], s')
    else (None, [], s').

(** Modelled from the spec: [ref] of RefCountedObject (gstmfxminiobject.c):
    one more reference on the same object. *)
Definition gst_mfx_mini_object_ref (obj : VaapiImage) : VaapiImage :=
  set_parent_instance obj
    {| ref_count := ref_count obj.(parent_instance) + 1;
       flags := flags obj.(parent_instance) |}.

(** Modelled from the spec: [unref] of RefCountedObject
    (gstmfxminiobject.c): one reference less and, when the count reaches
    zero, the finalize callback of the class, then the release of the
    storage. *)
Definition gst_mfx_mini_object_unref (klass : GstMfxMiniObjectClass)
    (pobj : option VaapiImage) : M St (option VaapiImage) :=
  match pobj with
  | None => ret None
  | Some obj =>
      let count := (ref_count obj.(parent_instance) - 1)%Z in
      let obj := set_parent_instance obj
                   {| ref_count := count;
                      flags := flags obj.(parent_instance) |} in
      if (count =? 0)%Z
      then finalize klass obj ;; emit EvFree ;; ret None
      else ret (Some obj)
  end.

(** *** Teardown and construction *)

Definition vaapi_image_finalize (img : VaapiImage) : M St VaapiImage :=
  '(_, img) <- _vaapi_image_unmap img ;;
  let image_id := vaapi_image_get_id (Some img) in
  (if negb (image_id =? VA_INVALID_ID)
   then
     GST_MFX_DISPLAY_LOCK img.(display) ;;
     status <-
       va_destroy_image (GST_MFX_DISPLAY_VADISPLAY P img.(display))
         image_id ;;
     GST_MFX_DISPLAY_UNLOCK img.(display) ;;
     if negb (vaapi_check_status status) then g_warning image_id
     else ret tt
   else ret tt) ;;
  gst_mfx_display_unref img.(display) ;;
  ret img.

Definition vaapi_image_create (img : VaapiImage) (w h : guint)
  : M St (gboolean * VaapiImage) :=
  let va_format := create_va_format in
  GST_MFX_DISPLAY_LOCK img.(display) ;;
  '(status, va) <-
    va_create_image (GST_MFX_DISPLAY_VADISPLAY P img.(display))
      va_format w h img.(image) ;;
  let img := set_image img va in
  GST_MFX_DISPLAY_UNLOCK img.(display) ;;
  if negb (status =? VA_STATUS_SUCCESS)%Z then ret (FALSE, img)
  else
    let img := set_internal_format img GST_VIDEO_FORMAT_NV12 in
    let img := set_width img w in
    let img := set_height img h in
    ret (TRUE, img).

Definition vaapi_image_class : GstMfxMiniObjectClass :=
  {| finalize := vaapi_image_finalize |}.

Definition vaapi_image_ref (pimage : option VaapiImage)
  : option VaapiImage :=
  match pimage with
  | None => None
  | Some img => Some (gst_mfx_mini_object_ref img)
  end.

(** The result is the object as it is after the call: [None] once its
    storage has been released. *)
Definition vaapi_image_unref (pimage : option VaapiImage)
  : M St (option VaapiImage) :=
  gst_mfx_mini_object_unref vaapi_image_class pimage.

Definition vaapi_image_new (disp : pointer) (w h : guint)
  : M St (option VaapiImage) :=
  g_return_val_if_fail (0 <? w) (ret None)
    (g_return_val_if_fail (0 <? h) (ret None)
       (g_return_val_if_fail (negb (disp =? NULL)) (ret None)
          (pimage <- gst_mfx_mini_object_new0 vaapi_image_class ;;
           match pimage with
           | None => ret None
           | Some img =>
               d <- gst_mfx_display_ref disp ;;
               let img := set_display img d in
               let img :=
                 set_image img
                   (VA.set_image_id img.(image) VA_INVALID_ID) in
               let img :=
                 set_image img (VA.set_buf img.(image) VA_INVALID_ID) in
               '(ok, img) <- vaapi_image_create img w h ;;
               if negb ok
               then vaapi_image_unref (Some img) ;; ret None
               else ret (Some img)
           end))).

(** [va_image] is the foreign descriptor the caller points to, [None] for
    a null pointer. *)
Definition vaapi_image_new_with_image (disp : pointer)
    (va_image : option VA.VAImage) : M St (option VaapiImage) :=
  match va_image with
  | None => ret None
  | Some va =>
      g_return_val_if_fail (negb (VA.image_id va =? VA_INVALID_ID))
        (ret None)
        (g_return_val_if_fail (negb (VA.buf va =? VA_INVALID_ID))
           (ret None)
           (pimage <- gst_mfx_mini_object_new0 vaapi_image_class ;;
            match pimage with
            | None => ret None
            | Some img =>
                d <- gst_mfx_display_ref disp ;;
                let img := set_display img d in
                let '(ok, img) := _vaapi_image_set_image img va in
                if negb ok
                then vaapi_image_unref (Some img) ;; ret None
                else ret (Some img)
            end))
  end.

End Image.

(** ** Reading a trace *)

Definition is_driver_call (e : event) : bool :=
  match e with
  | EvCreateImage _ _ _ _ _ | EvDestroyImage _ _ _
  | EvMapBuffer _ _ _ | EvUnmapBuffer _ _ _ => true
  | _ => false
  end.

Definition is_map_call (e : event) : bool :=
  match e with EvMapBuffer _ _ _ => true | _ => false end.

Definition is_unmap_call (e : event) : bool :=
  match e with EvUnmapBuffer _ _ _ => true | _ => false end.

Definition is_destroy_call (e : event) : bool :=
  match e with EvDestroyImage _ _ _ => true | _ => false end.

Definition count_calls (f : event -> bool) (evs : list event) : nat :=
  length (filter f evs).

(** The lock discipline of a trace: the lock is taken only when free and
    released only when held, every driver call happens while it is held,
    and it is free at the end.  [held] tells whether the lock is held at the
    start. *)
Fixpoint locked_calls (held : bool) (evs : list event) : bool :=
  match evs with
  | [] => negb held
  | EvLock _ :: rest => negb held && locked_calls true rest
  | EvUnlock _ :: rest => held && locked_calls false rest
  | e :: rest =>
      (if is_driver_call e then held else true) && locked_calls held rest
  end.

(** Two calls of [vaapi_image_map] in a row on the same object, nothing in
    between. *)
Definition map_twice {St} (P : Platform St) (pimage : option VaapiImage)
  : M St (gboolean * option VaapiImage) :=
  (first <- vaapi_image_map P pimage ;;
   vaapi_image_map P (snd first))%monad.

(** ** A test double for the platform *)

Module Double.

(** What the double answers.  [map_store] is the address its
    [vaMapBuffer] stores through the output argument, [None] when it
    stores nothing; [create_planes] is the plane count of the descriptor
    its [vaCreateImage] fills in. *)
Record config := {
  alloc_ok       : bool;
  create_status  : VAStatus;
  create_planes  : N;
  map_status     : VAStatus;
  map_store      : option pointer;
  unmap_status   : VAStatus;
  destroy_status : VAStatus
}.

Definition describe (fmt : VA.VAImageFormat) (w h planes : N) (n : nat)
  : VA.VAImage :=
  {| VA.image_id := N.of_nat n + 1; VA.format := fmt;
     VA.buf := N.of_nat n + 100; VA.width := w; VA.height := h;
     VA.data_size := w * h * 3 / 2; VA.num_planes := planes;
     VA.pitches := [w; w; 0]; VA.offsets := [0; w * h; 0] |}.

(** The state of the double counts the libva calls it has answered. *)
Definition platform (c : config) : Platform nat :=
  {| GST_MFX_DISPLAY_VADISPLAY := fun d => d;
     vaCreateImage := fun _ fmt w h cur n =>
       if (create_status c =? VA_STATUS_SUCCESS)%Z
       then (create_status c, describe fmt w h (create_planes c) n, S n)
       else (create_status c, cur, S n);
     vaDestroyImage := fun _ _ n => (destroy_status c, S n);
     vaMapBuffer := fun _ _ cur n =>
       match map_store c with
       | Some p => (map_status c, p, S n)
       | None => (map_status c, cur, S n)
       end;
     vaUnmapBuffer := fun _ _ n => (unmap_status c, S n);
     slice_alloc := fun n => (alloc_ok c, n) |}.

Definition working : config :=
  {| alloc_ok := true; create_status := VA_STATUS_SUCCESS;
     create_planes := 2; map_status := VA_STATUS_SUCCESS;
     map_store := Some 0x7f0000; unmap_status := VA_STATUS_SUCCESS;
     destroy_status := VA_STATUS_SUCCESS |}.

Definition failing_map : config :=
  {| alloc_ok := true; create_status := VA_STATUS_SUCCESS;
     create_planes := 2; map_status := VA_STATUS_ERROR_OPERATION_FAILED;
     map_store := None; unmap_status := VA_STATUS_SUCCESS;
     destroy_status := VA_STATUS_SUCCESS |}.

Definition failing_map_that_stores : config :=
  {| alloc_ok := true; create_status := VA_STATUS_SUCCESS;
     create_planes := 2; map_status := VA_STATUS_ERROR_OPERATION_FAILED;
     map_store := Some 0x7f0000; unmap_status := VA_STATUS_SUCCESS;
     destroy_status := VA_STATUS_SUCCESS |}.

Definition failing_unmap : config :=
  {| alloc_ok := true; create_status := VA_STATUS_SUCCESS;
     create_planes := 2; map_status := VA_STATUS_SUCCESS;
     map_store := Some 0x7f0000;
     unmap_status := VA_STATUS_ERROR_OPERATION_FAILED;
     destroy_status := VA_STATUS_SUCCESS |}.

Definition failing_create : config :=
  {| alloc_ok := true;
     create_status := VA_STATUS_ERROR_OPERATION_FAILED;
     create_planes := 2; map_status := VA_STATUS_SUCCESS;
     map_store := Some 0x7f0000; unmap_status := VA_STATUS_SUCCESS;
     destroy_status := VA_STATUS_SUCCESS |}.

Definition failing_destroy : config :=
  {| alloc_ok := true; create_status := VA_STATUS_SUCCESS;
     create_planes := 2; map_status := VA_STATUS_SUCCESS;
     map_store := Some 0x7f0000; unmap_status := VA_STATUS_SUCCESS;
     destroy_status := VA_STATUS_ERROR_OPERATION_FAILED |}.

Definition planeless_create : config :=
  {| alloc_ok := true; create_status := VA_STATUS_SUCCESS;
     create_planes := 0; map_status := VA_STATUS_SUCCESS;
     map_store := Some 0x7f0000; unmap_status := VA_STATUS_SUCCESS;
     destroy_status := VA_STATUS_SUCCESS |}.

(** A display at address 0x1000. *)
Definition dpy : pointer := 0x1000.

(** Foreign descriptors of a 640x480 image, as a driver hands them out
    when deriving an image from a surface: one in NV12, one in YV12. *)
Definition nv12_format : VA.VAImageFormat :=
  {| VA.fourcc := VA_FOURCC_NV12; VA.byte_order := VA_LSB_FIRST;
     VA.bits_per_pixel := 12; VA.depth := 0; VA.red_mask := 0;
     VA.green_mask := 0; VA.blue_mask := 0; VA.alpha_mask := 0 |}.

Definition yv12_format : VA.VAImageFormat :=
  {| VA.fourcc := VA_FOURCC_YV12; VA.byte_order := VA_LSB_FIRST;
     VA.bits_per_pixel := 12; VA.depth := 0; VA.red_mask := 0;
     VA.green_mask := 0; VA.blue_mask := 0; VA.alpha_mask := 0 |}.

Definition foreign_nv12 : VA.VAImage :=
  {| VA.image_id := 7; VA.format := nv12_format; VA.buf := 8;
     VA.width := 640; VA.height := 480; VA.data_size := 460800;
     VA.num_planes := 2; VA.pitches := [640; 640; 0];
     VA.offsets := [0; 307200; 0] |}.

Definition foreign_yv12 : VA.VAImage :=
  {| VA.image_id := 9; VA.format := yv12_format; VA.buf := 10;
     VA.width := 640; VA.height := 480; VA.data_size := 460800;
     VA.num_planes := 3; VA.pitches := [640; 320; 320];
     VA.offsets := [0; 307200; 384000] |}.

(** An image object wrapping [foreign_nv12], held by one reference;
    [mapped_image] is the same object while mapped at 0x7f0000. *)
Definition unmapped_image : VaapiImage :=
  {| parent_instance := {| ref_count := 1; flags := 0 |};
     display := dpy; internal_format := GST_VIDEO_FORMAT_NV12;
     image_data := NULL; width := 640; height := 480;
     image := foreign_nv12 |}.

Definition mapped_image : VaapiImage :=
  set_image_data unmapped_image 0x7f0000.

End Double.

(** ** Task role flags (gstmfxtask.h) *)

Module Task.

Inductive GstMfxTaskType :=
| GST_MFX_TASK_INVALID
| GST_MFX_TASK_DECODER
| GST_MFX_TASK_VPP_IN
| GST_MFX_TASK_VPP_OUT
| GST_MFX_TASK_ENCODER.

(** The integer value of each enumerator. *)
Definition value (t : GstMfxTaskType) : Z :=
  match t with
  | GST_MFX_TASK_INVALID => 0
  | GST_MFX_TASK_DECODER => Z.shiftl 1 0
  | GST_MFX_TASK_VPP_IN => Z.shiftl 1 1
  | GST_MFX_TASK_VPP_OUT => Z.shiftl 1 2
  | GST_MFX_TASK_ENCODER => Z.shiftl 1 3
  end%Z.

Definition eqb (a b : GstMfxTaskType) : bool :=
  match a, b with
  | GST_MFX_TASK_INVALID, GST_MFX_TASK_INVALID
  | GST_MFX_TASK_DECODER, GST_MFX_TASK_DECODER
  | GST_MFX_TASK_VPP_IN, GST_MFX_TASK_VPP_IN
  | GST_MFX_TASK_VPP_OUT, GST_MFX_TASK_VPP_OUT
  | GST_MFX_TASK_ENCODER, GST_MFX_TASK_ENCODER => true
  | _, _ => false
  end.

(** The four roles: every enumerator but the invalid one. *)
Definition is_role (t : GstMfxTaskType) : bool :=
  negb (eqb t GST_MFX_TASK_INVALID).

(** The [guint type_flags] of a set of roles: the bitwise or of their
    values. *)
Definition type_flags (roles : list GstMfxTaskType) : Z :=
  fold_right (fun t acc => Z.lor (value t) acc) 0%Z roles.

(** The position of the bit a role occupies. *)
Definition bit (t : GstMfxTaskType) : Z :=
  match t with
  | GST_MFX_TASK_INVALID => -1
  | GST_MFX_TASK_DECODER => 0
  | GST_MFX_TASK_VPP_IN => 1
  | GST_MFX_TASK_VPP_OUT => 2
  | GST_MFX_TASK_ENCODER => 3
  end%Z.

(** A value has a single bit set. *)
Definition single_bit (z : Z) : bool :=
  ((0 <? z) && (Z.land z (z - 1) =? 0))%Z.

End Task.

(** ** More test doubles *)

(** A double whose allocator has no storage left. *)
Definition out_of_memory : Double.config :=
  {| Double.alloc_ok := false;
     Double.create_status := VA_STATUS_SUCCESS;
     Double.create_planes := 2;
     Double.map_status := VA_STATUS_SUCCESS;
     Double.map_store := Some 0x7f0000;
     Double.unmap_status := VA_STATUS_SUCCESS;
     Double.destroy_status := VA_STATUS_SUCCESS |}.

(** A double whose map call reports success and stores nothing. *)
Definition silent_map : Double.config :=
  {| Double.alloc_ok := true;
     Double.create_status := VA_STATUS_SUCCESS;
     Double.create_planes := 2;
     Double.map_status := VA_STATUS_SUCCESS;
     Double.map_store := None;
     Double.unmap_status := VA_STATUS_SUCCESS;
     Double.destroy_status := VA_STATUS_SUCCESS |}.

(** A mapped image whose descriptor announces four planes. *)
Definition four_plane_image : VaapiImage :=
  set_image Double.mapped_image
    {| VA.image_id := 7; VA.format := Double.nv12_format; VA.buf := 8;
       VA.width := 640; VA.height := 480; VA.data_size := 460800;
       VA.num_planes := 4; VA.pitches := [640; 640; 0];
       VA.offsets := [0; 307200; 0] |}.

(** ** Sequences of map and unmap calls *)

Inductive image_op :=
| OpMap
| OpUnmap.

(** A caller issuing [vaapi_image_map] and [vaapi_image_unmap] on one
    object, in the order of [ops]; the return values are dropped. *)
Fixpoint run_ops {St} (P : Platform St) (ops : list image_op)
    (pimage : option VaapiImage) : M St (option VaapiImage) :=
  match ops with
  | [] => ret pimage
  | op :: rest =>
      (r <- match op with
            | OpMap => vaapi_image_map P pimage
            | OpUnmap => vaapi_image_unmap P pimage
            end ;;
       run_ops P rest (snd r))%monad
  end.

Definition is_op_map (op : image_op) : bool :=
  match op with OpMap => true | OpUnmap => false end.


Definition is_create_call (e : event) : bool :=
  match e with EvCreateImage _ _ _ _ _ => true | _ => false end.

Definition is_display_ref (d : pointer) (e : event) : bool :=
  match e with EvDisplayRef d' => d' =? d | _ => false end.

Definition is_display_unref (d : pointer) (e : event) : bool :=
  match e with EvDisplayUnref d' => d' =? d | _ => false end.

Definition is_refcount_event (e : event) : bool :=
  match e with
  | EvDisplayRef _ | EvDisplayUnref _ | EvFree => true
  | _ => false
  end.

(** What map and unmap have no store into: everything but [image_data]. *)
Definition static_part (pimage : option VaapiImage) :=
  match pimage with
  | None => None
  | Some img =>
      Some (parent_instance img, display img, internal_format img,
            width img, height img, image img)
  end.

(** A descriptor that respects the layout of [VAImage]: three-entry
    [pitches] and [offsets] arrays and at most three planes. *)
Definition descriptor_fits (va : VA.VAImage) : bool :=
  (length (VA.pitches va) =? 3)%nat && (length (VA.offsets va) =? 3)%nat
  && (VA.num_planes va <=? 3).

(** A driver whose map calls succeed with a non-null address and whose
    unmap calls succeed. *)
Definition reliable {St} (P : Platform St) : Prop :=
  (forall dpy b cur s,
     fst (fst (vaMapBuffer P dpy b cur s)) = VA_STATUS_SUCCESS /\
     snd (fst (vaMapBuffer P dpy b cur s)) <> NULL) /\
  (forall dpy b s, fst (vaUnmapBuffer P dpy b s) = VA_STATUS_SUCCESS).

(** * Properties *)

Unset Implicit Arguments.

(** ** Basic facts *)

Lemma is_mapped_iff (img : VaapiImage) :
  _vaapi_image_is_mapped img = true <-> image_data img <> NULL.
Proof.
  unfold _vaapi_image_is_mapped.
  rewrite negb_true_iff, N.eqb_neq. reflexivity.
Qed.

Lemma not_mapped_iff (img : VaapiImage) :
  _vaapi_image_is_mapped img = false <-> image_data img = NULL.
Proof.
  unfold _vaapi_image_is_mapped.
  rewrite negb_false_iff, N.eqb_eq. reflexivity.
Qed.

Lemma set_image_data_same (img : VaapiImage) :
  set_image_data img (image_data img) = img.
Proof. destruct img; reflexivity. Qed.

Lemma check_status_false (status : VAStatus) :
  vaapi_check_status status = false <-> status <> VA_STATUS_SUCCESS.
Proof. unfold vaapi_check_status. apply Z.eqb_neq. Qed.

(** ** Null arguments *)

(** C8. Every public query called with a null image gives its default
    without touching an object: the invalid id for [vaapi_image_get_id], 0
    for format, width, height, pitch, offset, data size and plane count,
    the null pointer for [vaapi_image_get_plane], and FALSE for
    [vaapi_image_is_mapped], [vaapi_image_map], [vaapi_image_unmap] and
    [vaapi_image_get_image]; map and unmap make no call on that path. *)
Theorem null_image_gives_defaults :
  forall St (P : Platform St) (plane : guint)
         (va_image : option VA.VAImage) (s : St),
    vaapi_image_get_id None = VA_INVALID_ID /\
    vaapi_image_get_format None = 0 /\
    vaapi_image_get_width None = 0 /\
    vaapi_image_get_height None = 0 /\
    vaapi_image_get_pitch None plane = Some 0 /\
    vaapi_image_get_offset None plane = Some 0 /\
    vaapi_image_get_data_size None = 0 /\
    vaapi_image_get_plane_count None = 0 /\
    vaapi_image_get_plane None plane = Some NULL /\
    vaapi_image_is_mapped None = FALSE /\
    vaapi_image_map P None s = ((FALSE, None), [], s) /\
    vaapi_image_unmap P None s = ((FALSE, None), [], s) /\
    vaapi_image_get_image None va_image = (FALSE, va_image).
Proof. intros. repeat split. Qed.

(** C9. On a non-null image [vaapi_image_get_image] returns TRUE in both
    output modes: a non-null output descriptor receives a copy of the
    internal descriptor, a null one stays null and nothing is written.  The
    function has no store into the image, which is why its model gives back
    no image. *)
Theorem get_image_both_output_modes :
  forall (img : VaapiImage) (old : VA.VAImage),
    vaapi_image_get_image (Some img) (Some old) = (TRUE, Some (image img)) /\
    vaapi_image_get_image (Some img) None = (TRUE, None).
Proof. intros. split; reflexivity. Qed.

(** ** Planes *)

(** C6, as the code has it. [vaapi_image_get_plane] on a mapped image and
    a plane index below the plane count returns the mapped base address
    plus the offset of that plane, provided the index lies inside the
    three-entry [offsets] array of the descriptor: the code checks the index
    against the plane count only. On an unmapped image, or with an index at
    or above the plane count, it returns the null pointer. *)
Theorem get_plane_mapped_and_in_range :
  forall (img : VaapiImage) (plane : guint),
    (vaapi_image_is_mapped (Some img) = true ->
     plane < vaapi_image_get_plane_count (Some img) ->
     forall off,
       array_get (VA.offsets (image img)) plane = Some off ->
       vaapi_image_get_plane (Some img) plane = Some (image_data img + off))
    /\
    (vaapi_image_is_mapped (Some img) = false \/
     vaapi_image_get_plane_count (Some img) <= plane ->
     vaapi_image_get_plane (Some img) plane = Some NULL).
Proof.
  intros img plane. cbn [vaapi_image_is_mapped vaapi_image_get_plane_count].
  unfold vaapi_image_get_plane, g_return_val_if_fail. split.
  - intros Hmapped Hplane off Hoff.
    apply N.ltb_lt in Hplane. rewrite Hmapped, Hplane, Hoff. reflexivity.
  - intros [Hunmapped | Hplane].
    + rewrite Hunmapped. reflexivity.
    + apply N.ltb_ge in Hplane. rewrite Hplane.
      destruct (_vaapi_image_is_mapped img); reflexivity.
Qed.

Lemma get_plane_mapped_and_in_range_witness :
  vaapi_image_get_plane (Some Double.mapped_image) 1
    = Some (0x7f0000 + 307200) /\
  vaapi_image_get_plane (Some Double.unmapped_image) 1 = Some NULL /\
  vaapi_image_get_plane (Some Double.mapped_image) 2 = Some NULL.
Proof.
  split; [| split].
  - apply (proj1 (get_plane_mapped_and_in_range Double.mapped_image 1));
      reflexivity.
  - apply (proj2 (get_plane_mapped_and_in_range Double.unmapped_image 1)).
    left. reflexivity.
  - apply (proj2 (get_plane_mapped_and_in_range Double.mapped_image 2)).
    right. vm_compute. discriminate.
Defined.

(** C6 fails as stated: adopting a descriptor that announces four planes
    and mapping it gives a mapped image on which index 3 is below the plane
    count, yet the read of [offsets[3]] falls outside the three-entry array
    and the result is not the mapped base address plus an offset. *)
Lemma get_plane_reads_past_offsets_array :
  result
    (vaapi_image_map (Double.platform Double.working)
       (result
          (vaapi_image_new_with_image (Double.platform Double.working)
             Double.dpy (Some (image four_plane_image)) 0%nat))
       0%nat)
    = (TRUE, Some four_plane_image) /\
  vaapi_image_is_mapped (Some four_plane_image) = true /\
  3 < vaapi_image_get_plane_count (Some four_plane_image) /\
  array_get (VA.offsets (image four_plane_image)) 3 = None /\
  vaapi_image_get_plane (Some four_plane_image) 3 = None /\
  ~ (exists off,
       vaapi_image_get_plane (Some four_plane_image) 3
         = Some (image_data four_plane_image + off)).
Proof.
  split; [vm_compute; reflexivity |].
  split; [vm_compute; reflexivity |].
  split; [vm_compute; reflexivity |].
  split; [vm_compute; reflexivity |].
  assert (vaapi_image_get_plane (Some four_plane_image) 3 = None) as Hread
    by (vm_compute; reflexivity).
  split; [exact Hread |].
  intros [off Hplane]. rewrite Hread in Hplane. discriminate Hplane.
Qed.

(** ** Adopting a foreign descriptor *)

Lemma new_with_image_adopts :
  forall St (P : Platform St) (disp : pointer) (va : VA.VAImage) (s s1 : St),
    VA.image_id va <> VA_INVALID_ID ->
    VA.buf va <> VA_INVALID_ID ->
    slice_alloc P s = (true, s1) ->
    vaapi_image_new_with_image P disp (Some va) s =
      (Some {| parent_instance := {| ref_count := 1; flags := 0 |};
               display := disp; internal_format := GST_VIDEO_FORMAT_NV12;
               image_data := NULL; width := VA.width va;
               height := VA.height va; image := va |},
       [EvDisplayRef disp], s1).
Proof.
  intros St P disp va s s1 Hid Hbuf Halloc.
  apply N.eqb_neq in Hid. apply N.eqb_neq in Hbuf.
  unfold vaapi_image_new_with_image, g_return_val_if_fail.
  rewrite Hid, Hbuf. cbn [negb].
  unfold bind, gst_mfx_mini_object_new0. rewrite Halloc.
  reflexivity.
Qed.

(** C1. An image adopted from a foreign descriptor with valid image and
    buffer handles takes its width, height and plane layout from the
    descriptor, but [vaapi_image_get_format] answers NV12 whatever the
    format of the descriptor is: the format is not taken from it. *)
Theorem adopted_image_format_is_always_nv12 :
  forall St (P : Platform St) (disp : pointer) (va : VA.VAImage) (s s1 : St),
    VA.image_id va <> VA_INVALID_ID ->
    VA.buf va <> VA_INVALID_ID ->
    slice_alloc P s = (true, s1) ->
    exists img,
      result (vaapi_image_new_with_image P disp (Some va) s) = Some img /\
      vaapi_image_get_format (Some img) = GST_VIDEO_FORMAT_NV12 /\
      vaapi_image_get_width (Some img) = VA.width va /\
      vaapi_image_get_height (Some img) = VA.height va /\
      vaapi_image_get_image (Some img) (Some VA.zero_image)
        = (TRUE, Some va).
Proof.
  intros St P disp va s s1 Hid Hbuf Halloc.
  rewrite (new_with_image_adopts St P disp va s s1 Hid Hbuf Halloc).
  eexists. split; [reflexivity |]. repeat split.
Qed.

Lemma adopted_image_format_is_always_nv12_witness :
  exists img,
    result (vaapi_image_new_with_image (Double.platform Double.working)
              Double.dpy (Some Double.foreign_yv12) 0%nat) = Some img /\
    vaapi_image_get_format (Some img) = GST_VIDEO_FORMAT_NV12 /\
    VA.fourcc (VA.format (image img)) = VA_FOURCC_YV12 /\
    VA_FOURCC_YV12 <> VA_FOURCC_NV12.
Proof.
  destruct (@adopted_image_format_is_always_nv12 nat
              (Double.platform Double.working) Double.dpy
              Double.foreign_yv12 0%nat 0%nat)
    as [img [Hnew [Hformat [_ [_ Hdescr]]]]].
  - vm_compute. discriminate.
  - vm_compute. discriminate.
  - reflexivity.
  - exists img. split; [exact Hnew |]. split; [exact Hformat |].
    split.
    + cbn in Hdescr. inversion Hdescr as [Himage]. rewrite Himage.
      reflexivity.
    + vm_compute. discriminate.
Defined.

(** ** Map and unmap *)

Section MapUnmap.

Variable St : Type.
Variable P : Platform St.

Lemma map_when_mapped (img : VaapiImage) (s : St) :
  _vaapi_image_is_mapped img = true ->
  _vaapi_image_map P img s = ((TRUE, img), [], s).
Proof.
  intros Hmapped. unfold _vaapi_image_map. rewrite Hmapped. reflexivity.
Qed.

Lemma unmap_when_unmapped (img : VaapiImage) (s : St) :
  _vaapi_image_is_mapped img = false ->
  _vaapi_image_unmap P img s = ((TRUE, img), [], s).
Proof.
  intros Hunmapped. unfold _vaapi_image_unmap. rewrite Hunmapped.
  reflexivity.
Qed.

(** One driver call under the lock; the object afterwards holds what the
    driver left in [image_data]. *)
Lemma map_when_unmapped (img : VaapiImage) (s s1 : St)
    (status : VAStatus) (p : pointer) :
  _vaapi_image_is_mapped img = false ->
  vaMapBuffer P (GST_MFX_DISPLAY_VADISPLAY P (display img))
    (VA.buf (image img)) (image_data img) s = (status, p, s1) ->
  _vaapi_image_map P img s =
    ((vaapi_check_status status, set_image_data img p),
     [EvLock (display img);
      EvMapBuffer (GST_MFX_DISPLAY_VADISPLAY P (display img))
        (VA.buf (image img)) status;
      EvUnlock (display img)],
     s1).
Proof.
  intros Hunmapped Hdriver. unfold _vaapi_image_map. rewrite Hunmapped.
  unfold bind, GST_MFX_DISPLAY_LOCK, GST_MFX_DISPLAY_UNLOCK, emit,
    va_map_buffer.
  rewrite Hdriver. cbn.
  destruct (vaapi_check_status status); reflexivity.
Qed.

Lemma unmap_when_mapped (img : VaapiImage) (s s1 : St)
    (status : VAStatus) :
  _vaapi_image_is_mapped img = true ->
  vaUnmapBuffer P (GST_MFX_DISPLAY_VADISPLAY P (display img))
    (VA.buf (image img)) s = (status, s1) ->
  _vaapi_image_unmap P img s =
    ((vaapi_check_status status,
      if vaapi_check_status status then set_image_data img NULL else img),
     [EvLock (display img);
      EvUnmapBuffer (GST_MFX_DISPLAY_VADISPLAY P (display img))
        (VA.buf (image img)) status;
      EvUnlock (display img)],
     s1).
Proof.
  intros Hmapped Hdriver. unfold _vaapi_image_unmap. rewrite Hmapped.
  unfold bind, GST_MFX_DISPLAY_LOCK, GST_MFX_DISPLAY_UNLOCK, emit,
    va_unmap_buffer.
  cbn. rewrite Hdriver. cbn.
  destruct (vaapi_check_status status); reflexivity.
Qed.

(** Unmapping never touches the display, the descriptor or the header. *)
Lemma unmap_keeps_fields (img : VaapiImage) (s : St) :
  let img' := snd (result (_vaapi_image_unmap P img s)) in
  display img' = display img /\ image img' = image img /\
  parent_instance img' = parent_instance img.
Proof.
  destruct (_vaapi_image_is_mapped img) eqn:Hmapped.
  - destruct (vaUnmapBuffer P (GST_MFX_DISPLAY_VADISPLAY P (display img))
                (VA.buf (image img)) s) as [status s1] eqn:Hdriver.
    rewrite (unmap_when_mapped img s s1 status Hmapped Hdriver). cbn.
    destruct (vaapi_check_status status); repeat split.
  - rewrite (unmap_when_unmapped img s Hmapped). repeat split.
Qed.

End MapUnmap.

Lemma vaapi_image_map_some :
  forall St (P : Platform St) (img : VaapiImage) (s : St),
    vaapi_image_map P (Some img) s =
      let r := _vaapi_image_map P img s in
      ((fst (result r), Some (snd (result r))), events r, final r).
Proof.
  intros. unfold vaapi_image_map, bind, ret.
  destruct (_vaapi_image_map P img s) as [[[ok img'] evs] s'].
  cbn. rewrite app_nil_r. reflexivity.
Qed.

Lemma vaapi_image_unmap_some :
  forall St (P : Platform St) (img : VaapiImage) (s : St),
    vaapi_image_unmap P (Some img) s =
      let r := _vaapi_image_unmap P img s in
      ((fst (result r), Some (snd (result r))), events r, final r).
Proof.
  intros. unfold vaapi_image_unmap, bind, ret.
  destruct (_vaapi_image_unmap P img s) as [[[ok img'] evs] s'].
  cbn. rewrite app_nil_r. reflexivity.
Qed.

(** C2, as the code has it. When the driver map call fails, map returns
    failure and [image_data] holds what the driver left in its output
    argument, so the image is mapped afterwards exactly when that address is
    not null; when the driver left the null address there, the image is
    unchanged. When the driver unmap call fails, unmap returns failure and
    the image is unchanged, still mapped at the same address. *)
Theorem failed_driver_call_in_map_and_unmap :
  forall St (P : Platform St) (img : VaapiImage) (s s1 : St)
         (status : VAStatus),
    vaapi_check_status status = false ->
    (forall p,
       vaapi_image_is_mapped (Some img) = false ->
       vaMapBuffer P (GST_MFX_DISPLAY_VADISPLAY P (display img))
         (VA.buf (image img)) (image_data img) s = (status, p, s1) ->
       result (vaapi_image_map P (Some img) s)
         = (FALSE, Some (set_image_data img p)) /\
       vaapi_image_is_mapped (Some (set_image_data img p))
         = negb (p =? NULL) /\
       (p = NULL -> set_image_data img p = img))
    /\
    (vaapi_image_is_mapped (Some img) = true ->
     vaUnmapBuffer P (GST_MFX_DISPLAY_VADISPLAY P (display img))
       (VA.buf (image img)) s = (status, s1) ->
     result (vaapi_image_unmap P (Some img) s) = (FALSE, Some img)).
Proof.
  intros St P img s s1 status Hfail. split.
  - intros p Hunmapped Hdriver. cbn in Hunmapped.
    rewrite vaapi_image_map_some.
    rewrite (map_when_unmapped St P img s s1 status p Hunmapped Hdriver).
    cbn. rewrite Hfail. split; [reflexivity |]. split; [reflexivity |].
    intros ->. apply not_mapped_iff in Hunmapped.
    rewrite <- Hunmapped. apply set_image_data_same.
  - intros Hmapped Hdriver. cbn in Hmapped.
    rewrite vaapi_image_unmap_some.
    rewrite (unmap_when_mapped St P img s s1 status Hmapped Hdriver).
    cbn. rewrite Hfail. reflexivity.
Qed.

Lemma failed_driver_call_in_map_and_unmap_witness :
  (result (vaapi_image_map (Double.platform Double.failing_map)
             (Some Double.unmapped_image) 0%nat)
     = (FALSE, Some (set_image_data Double.unmapped_image NULL)) /\
   vaapi_image_is_mapped
     (Some (set_image_data Double.unmapped_image NULL)) = false /\
   (NULL = NULL ->
    set_image_data Double.unmapped_image NULL = Double.unmapped_image)) /\
  result (vaapi_image_unmap (Double.platform Double.failing_unmap)
            (Some Double.mapped_image) 0%nat)
    = (FALSE, Some Double.mapped_image).
Proof.
  split.
  - apply (proj1 (failed_driver_call_in_map_and_unmap nat
                    (Double.platform Double.failing_map)
                    Double.unmapped_image 0%nat 1%nat
                    VA_STATUS_ERROR_OPERATION_FAILED eq_refl) NULL);
      reflexivity.
  - apply (proj2 (failed_driver_call_in_map_and_unmap nat
                    (Double.platform Double.failing_unmap)
                    Double.mapped_image 0%nat 1%nat
                    VA_STATUS_ERROR_OPERATION_FAILED eq_refl));
      reflexivity.
Defined.

(** C2 fails as stated: a driver whose map call fails after storing an
    address through its output argument leaves the image mapped, although
    map returns failure. *)
Lemma failed_map_leaves_image_mapped :
  let P := Double.platform Double.failing_map_that_stores in
  let r := vaapi_image_map P (Some Double.unmapped_image) 0%nat in
  vaapi_image_is_mapped (Some Double.unmapped_image) = false /\
  events r = [EvLock Double.dpy;
              EvMapBuffer Double.dpy 8 VA_STATUS_ERROR_OPERATION_FAILED;
              EvUnlock Double.dpy] /\
  fst (result r) = FALSE /\
  vaapi_image_is_mapped (snd (result r)) = true /\
  snd (result r) = Some (set_image_data Double.unmapped_image 0x7f0000) /\
  ~ (vaapi_image_is_mapped (snd (result r)) = false).
Proof.
  cbv zeta. repeat split. vm_compute. discriminate.
Qed.

(** C3, as the code has it. Map on a mapped image and unmap on an unmapped
    image succeed at once, change nothing and make no call at all; two maps
    in a row make at most one driver map call whenever the first one leaves
    the image mapped. *)
Theorem map_and_unmap_are_idempotent :
  forall St (P : Platform St) (img : VaapiImage) (s : St),
    (vaapi_image_is_mapped (Some img) = true ->
     vaapi_image_map P (Some img) s = ((TRUE, Some img), [], s)) /\
    (vaapi_image_is_mapped (Some img) = false ->
     vaapi_image_unmap P (Some img) s = ((TRUE, Some img), [], s)) /\
    (vaapi_image_is_mapped (snd (result (vaapi_image_map P (Some img) s)))
       = true ->
     (count_calls is_map_call (events (map_twice P (Some img) s)) <= 1)%nat).
Proof.
  intros St P img s. split; [| split].
  - intros Hmapped. cbn in Hmapped.
    rewrite vaapi_image_map_some, (map_when_mapped St P img s Hmapped).
    reflexivity.
  - intros Hunmapped. cbn in Hunmapped.
    rewrite vaapi_image_unmap_some,
      (unmap_when_unmapped St P img s Hunmapped).
    reflexivity.
  - unfold map_twice, bind. rewrite vaapi_image_map_some.
    destruct (_vaapi_image_is_mapped img) eqn:Hfirst.
    + rewrite (map_when_mapped St P img s Hfirst).
      cbn [result events final fst snd].
      intros _. rewrite vaapi_image_map_some,
        (map_when_mapped St P img s Hfirst).
      cbn. lia.
    + destruct (vaMapBuffer P (GST_MFX_DISPLAY_VADISPLAY P (display img))
                  (VA.buf (image img)) (image_data img) s)
        as [[status p] s1] eqn:Hdriver.
      rewrite (map_when_unmapped St P img s s1 status p Hfirst Hdriver).
      cbn [result events final fst snd vaapi_image_is_mapped].
      intros Hsecond.
      rewrite vaapi_image_map_some,
        (map_when_mapped St P (set_image_data img p) s1 Hsecond).
      cbn. lia.
Qed.

Lemma map_and_unmap_are_idempotent_witness :
  vaapi_image_map (Double.platform Double.working)
    (Some Double.mapped_image) 0%nat
    = ((TRUE, Some Double.mapped_image), [], 0%nat) /\
  vaapi_image_unmap (Double.platform Double.working)
    (Some Double.unmapped_image) 0%nat
    = ((TRUE, Some Double.unmapped_image), [], 0%nat) /\
  (count_calls is_map_call
     (events (map_twice (Double.platform Double.working)
                (Some Double.unmapped_image) 0%nat)) <= 1)%nat.
Proof.
  split; [| split].
  - apply (proj1 (map_and_unmap_are_idempotent nat
                    (Double.platform Double.working)
                    Double.mapped_image 0%nat)).
    reflexivity.
  - apply (proj1 (proj2 (map_and_unmap_are_idempotent nat
                           (Double.platform Double.working)
                           Double.unmapped_image 0%nat))).
    reflexivity.
  - apply (proj2 (proj2 (map_and_unmap_are_idempotent nat
                           (Double.platform Double.working)
                           Double.unmapped_image 0%nat))).
    reflexivity.
Defined.

(** C3 fails as stated: when the driver map call fails, the image stays
    unmapped and the second of two maps in a row calls the driver again. *)
Lemma two_maps_two_driver_calls :
  let P := Double.platform Double.failing_map in
  let r := map_twice P (Some Double.unmapped_image) 0%nat in
  events r = [EvLock Double.dpy;
              EvMapBuffer Double.dpy 8 VA_STATUS_ERROR_OPERATION_FAILED;
              EvUnlock Double.dpy;
              EvLock Double.dpy;
              EvMapBuffer Double.dpy 8 VA_STATUS_ERROR_OPERATION_FAILED;
              EvUnlock Double.dpy] /\
  count_calls is_map_call (events r) = 2%nat /\
  ~ (count_calls is_map_call (events r) <= 1)%nat.
Proof.
  cbv zeta. repeat split. vm_compute. lia.
Qed.

(** ** Construction and teardown *)

Section Lifecycle.

Variable St : Type.
Variable P : Platform St.

(** The events of an unmap are empty or one driver unmap under the
    lock. *)
Lemma unmap_events (img : VaapiImage) (s : St) :
  let r := _vaapi_image_unmap P img s in
  events r = [] \/
  exists status,
    events r = [EvLock (display img);
                EvUnmapBuffer (GST_MFX_DISPLAY_VADISPLAY P (display img))
                  (VA.buf (image img)) status;
                EvUnlock (display img)].
Proof.
  destruct (_vaapi_image_is_mapped img) eqn:Hmapped.
  - destruct (vaUnmapBuffer P (GST_MFX_DISPLAY_VADISPLAY P (display img))
                (VA.buf (image img)) s)
      as [status s1] eqn:Hdriver.
    right. exists status.
    rewrite (unmap_when_mapped St P img s s1 status Hmapped Hdriver).
    reflexivity.
  - left. rewrite (unmap_when_unmapped St P img s Hmapped). reflexivity.
Qed.

Lemma finalize_invalid_id (img : VaapiImage) (s : St) :
  vaapi_image_get_id (Some img) = VA_INVALID_ID ->
  let r := _vaapi_image_unmap P img s in
  vaapi_image_finalize P img s =
    (snd (result r), events r ++ [EvDisplayUnref (display img)], final r).
Proof.
  intros Hid. cbv zeta.
  pose proof (unmap_keeps_fields St P img s) as Hkeep. cbv zeta in Hkeep.
  unfold vaapi_image_finalize, bind.
  destruct (_vaapi_image_unmap P img s) as [[[ok img1] evs1] s1].
  cbn [result events final fst snd] in *.
  destruct Hkeep as [Hdisplay [Himage _]].
  cbn [vaapi_image_get_id] in *. rewrite Himage, Hid, Hdisplay.
  rewrite N.eqb_refl. reflexivity.
Qed.

Lemma finalize_valid_id (img : VaapiImage) (s s2 : St)
    (status : VAStatus) :
  vaapi_image_get_id (Some img) <> VA_INVALID_ID ->
  let r := _vaapi_image_unmap P img s in
  vaDestroyImage P (GST_MFX_DISPLAY_VADISPLAY P (display img))
    (vaapi_image_get_id (Some img)) (final r)
    = (status, s2) ->
  vaapi_image_finalize P img s =
    (snd (result r),
     events r ++
     [EvLock (display img);
      EvDestroyImage (GST_MFX_DISPLAY_VADISPLAY P (display img))
        (vaapi_image_get_id (Some img)) status;
      EvUnlock (display img)] ++
     (if vaapi_check_status status then []
      else [EvWarning (vaapi_image_get_id (Some img))]) ++
     [EvDisplayUnref (display img)],
     s2).
Proof.
  intros Hid. cbv zeta.
  pose proof (unmap_keeps_fields St P img s) as Hkeep. cbv zeta in Hkeep.
  unfold vaapi_image_finalize, bind.
  destruct (_vaapi_image_unmap P img s) as [[[ok img1] evs1] s1].
  cbn [result events final fst snd] in *.
  destruct Hkeep as [Hdisplay [Himage _]].
  cbn [vaapi_image_get_id] in *. rewrite Himage, Hdisplay.
  apply N.eqb_neq in Hid. rewrite Hid. intros Hdriver.
  unfold GST_MFX_DISPLAY_LOCK, GST_MFX_DISPLAY_UNLOCK, emit,
    va_destroy_image, gst_mfx_display_unref, g_warning, ret.
  cbn. rewrite Hdriver.
  destruct (vaapi_check_status status); reflexivity.
Qed.

Lemma unref_last (img : VaapiImage) (s : St) :
  ref_count (parent_instance img) = 1%Z ->
  let r := vaapi_image_finalize P (drop_last_ref img) s in
  vaapi_image_unref P (Some img) s = (None, events r ++ [EvFree], final r).
Proof.
  intros Hcount. cbv zeta.
  unfold vaapi_image_unref, gst_mfx_mini_object_unref.
  rewrite Hcount. cbn [Z.sub Z.eqb Z.add Z.opp Z.pos_sub finalize
                         vaapi_image_class].
  unfold bind, emit, ret, drop_last_ref.
  destruct (vaapi_image_finalize P _ s) as [[img1 evs] s1].
  reflexivity.
Qed.

Lemma create_runs_driver (img : VaapiImage) (w h : guint) (s s1 : St)
    (status : VAStatus) (va : VA.VAImage) :
  vaCreateImage P (GST_MFX_DISPLAY_VADISPLAY P (display img))
    create_va_format w h (image img) s
    = (status, va, s1) ->
  vaapi_image_create P img w h s =
    ((if (status =? VA_STATUS_SUCCESS)%Z
      then (TRUE,
            set_height
              (set_width
                 (set_internal_format (set_image img va)
                    GST_VIDEO_FORMAT_NV12) w) h)
      else (FALSE, set_image img va)),
     [EvLock (display img);
      EvCreateImage (GST_MFX_DISPLAY_VADISPLAY P (display img))
        VA_FOURCC_NV12 w h status;
      EvUnlock (display img)],
     s1).
Proof.
  intros Hdriver.
  unfold vaapi_image_create, bind, GST_MFX_DISPLAY_LOCK,
    GST_MFX_DISPLAY_UNLOCK, emit, va_create_image in *.
  cbn. rewrite Hdriver. cbn.
  destruct (status =? VA_STATUS_SUCCESS)%Z; reflexivity.
Qed.

(** What [vaapi_image_new] does on arguments that pass its checks. *)
Lemma new_runs (disp : pointer) (w h : guint) (s s1 s2 : St)
    (ok : bool) (status : VAStatus) (va : VA.VAImage) :
  0 < w -> 0 < h -> disp <> NULL ->
  slice_alloc P s = (ok, s1) ->
  vaCreateImage P (GST_MFX_DISPLAY_VADISPLAY P disp) create_va_format w h
    (image (blank_image disp)) s1 = (status, va, s2) ->
  let built := [EvDisplayRef disp; EvLock disp;
                EvCreateImage (GST_MFX_DISPLAY_VADISPLAY P disp)
                  VA_FOURCC_NV12 w h status;
                EvUnlock disp] in
  vaapi_image_new P disp w h s =
    if ok then
      if (status =? VA_STATUS_SUCCESS)%Z then
        (Some {| parent_instance := {| ref_count := 1; flags := 0 |};
                 display := disp;
                 internal_format := GST_VIDEO_FORMAT_NV12;
                 image_data := NULL; width := w; height := h;
                 image := va |},
         built, s2)
      else
        let r := vaapi_image_unref P
                   (Some (set_image (blank_image disp) va)) s2 in
        (None, built ++ events r, final r)
    else (None, [], s1).
Proof.
  intros Hw Hh Hdisp Halloc Hdriver. cbv zeta.
  apply N.ltb_lt in Hw. apply N.ltb_lt in Hh. apply N.eqb_neq in Hdisp.
  unfold vaapi_image_new, g_return_val_if_fail.
  rewrite Hw, Hh, Hdisp. cbn [negb].
  unfold bind at 1. unfold gst_mfx_mini_object_new0. rewrite Halloc.
  destruct ok; [| reflexivity].
  unfold bind at 1. unfold gst_mfx_display_ref at 1.
  unfold bind at 1. unfold emit, ret at 1. cbn [app].
  unfold bind at 1.
  change (set_image _ (VA.set_buf _ VA_INVALID_ID))
    with (blank_image disp).
  rewrite (create_runs_driver (blank_image disp) w h s1 s2 status va
             Hdriver).
  destruct (status =? VA_STATUS_SUCCESS)%Z.
  - reflexivity.
  - unfold bind, ret, FALSE. cbn [negb]. cbv beta.
    destruct (vaapi_image_unref P _ s2) as [[gone evs] s3].
    cbn. rewrite app_nil_r. reflexivity.
Qed.

End Lifecycle.

(** C4, as the code has it. On a positive width and height and a non-null
    display, [vaapi_image_new] returns an object exactly when the allocation
    and the driver's image creation both succeed, and no object otherwise.
    A returned image has the requested width and height, the NV12 format,
    no mapped address, and the plane count the driver wrote into the
    descriptor, which the code does not inspect. *)
Theorem new_image_has_requested_geometry :
  forall St (P : Platform St) (disp : pointer) (w h : guint)
         (s s1 s2 : St) (ok : bool) (status : VAStatus) (va : VA.VAImage),
    0 < w -> 0 < h -> disp <> NULL ->
    slice_alloc P s = (ok, s1) ->
    vaCreateImage P (GST_MFX_DISPLAY_VADISPLAY P disp) create_va_format w h
      (image (blank_image disp)) s1 = (status, va, s2) ->
    if (ok && (status =? VA_STATUS_SUCCESS)%Z)%bool
    then
      exists img,
        result (vaapi_image_new P disp w h s) = Some img /\
        vaapi_image_get_width (Some img) = w /\
        vaapi_image_get_height (Some img) = h /\
        vaapi_image_get_format (Some img) = GST_VIDEO_FORMAT_NV12 /\
        vaapi_image_get_plane_count (Some img) = VA.num_planes va /\
        vaapi_image_is_mapped (Some img) = false /\
        image_data img = NULL
    else result (vaapi_image_new P disp w h s) = None.
Proof.
  intros St P disp w h s s1 s2 ok status va Hw Hh Hdisp Halloc Hdriver.
  rewrite (new_runs St P disp w h s s1 s2 ok status va
             Hw Hh Hdisp Halloc Hdriver).
  destruct ok; [| reflexivity].
  destruct (status =? VA_STATUS_SUCCESS)%Z; cbn [andb].
  - eexists. split; [reflexivity |]. repeat split.
  - reflexivity.
Qed.

Lemma new_image_has_requested_geometry_witness :
  exists img,
    result (vaapi_image_new (Double.platform Double.working)
              Double.dpy 640 480 0%nat) = Some img /\
    vaapi_image_get_width (Some img) = 640 /\
    vaapi_image_get_height (Some img) = 480 /\
    vaapi_image_get_format (Some img) = GST_VIDEO_FORMAT_NV12 /\
    vaapi_image_get_plane_count (Some img) = 2 /\
    vaapi_image_is_mapped (Some img) = false /\
    image_data img = NULL.
Proof.
  apply (new_image_has_requested_geometry nat
           (Double.platform Double.working) Double.dpy 640 480
           0%nat 0%nat 1%nat true VA_STATUS_SUCCESS
           (Double.describe create_va_format 640 480 2 0)).
  - reflexivity.
  - reflexivity.
  - vm_compute. discriminate.
  - reflexivity.
  - reflexivity.
Defined.

(** C4 fails as stated: when the driver reports success and writes a
    descriptor without planes, [vaapi_image_new] returns an image whose
    plane count is 0. *)
Lemma new_image_without_planes :
  let P := Double.platform Double.planeless_create in
  let r := vaapi_image_new P Double.dpy 640 480 0%nat in
  exists img,
    result r = Some img /\
    vaapi_image_get_width (Some img) = 640 /\
    vaapi_image_get_height (Some img) = 480 /\
    vaapi_image_get_plane_count (Some img) = 0 /\
    ~ (0 < vaapi_image_get_plane_count (Some img)).
Proof.
  cbv zeta. eexists. split; [reflexivity |]. repeat split.
  vm_compute. discriminate.
Qed.

(** C5. When the driver's image creation fails inside [vaapi_image_new],
    the object built so far is released through [vaapi_image_unref], whose
    last-reference path runs [vaapi_image_finalize] and frees the storage:
    the same path as for a complete image. [vaapi_image_finalize] on an
    image whose id is the invalid sentinel makes no driver destroy call and
    ends by giving back the display reference. *)
Theorem failed_construction_unwinds_through_finalize :
  forall St (P : Platform St),
    (forall (disp : pointer) (w h : guint) (s s1 s2 : St)
            (status : VAStatus) (va : VA.VAImage),
       0 < w -> 0 < h -> disp <> NULL ->
       slice_alloc P s = (true, s1) ->
       vaCreateImage P (GST_MFX_DISPLAY_VADISPLAY P disp) create_va_format
         w h (image (blank_image disp)) s1 = (status, va, s2) ->
       status <> VA_STATUS_SUCCESS ->
       let r := vaapi_image_finalize P
                  (drop_last_ref (set_image (blank_image disp) va)) s2 in
       vaapi_image_new P disp w h s =
         (None,
          [EvDisplayRef disp; EvLock disp;
           EvCreateImage (GST_MFX_DISPLAY_VADISPLAY P disp) VA_FOURCC_NV12
             w h status;
           EvUnlock disp] ++ events r ++ [EvFree],
          final r))
    /\
    (forall (img : VaapiImage) (s : St),
       ref_count (parent_instance img) = 1%Z ->
       let r := vaapi_image_finalize P (drop_last_ref img) s in
       vaapi_image_unref P (Some img) s
         = (None, events r ++ [EvFree], final r))
    /\
    (forall (img : VaapiImage) (s : St),
       vaapi_image_get_id (Some img) = VA_INVALID_ID ->
       let r := vaapi_image_finalize P img s in
       count_calls is_destroy_call (events r) = 0%nat /\
       exists before,
         events r = before ++ [EvDisplayUnref (display img)]).
Proof.
  intros St P. split; [| split].
  - intros disp w h s s1 s2 status va Hw Hh Hdisp Halloc Hdriver Hfail.
    cbv zeta.
    rewrite (new_runs St P disp w h s s1 s2 true status va
               Hw Hh Hdisp Halloc Hdriver).
    apply Z.eqb_neq in Hfail. rewrite Hfail. cbv zeta.
    rewrite (unref_last St P (set_image (blank_image disp) va) s2 eq_refl).
    reflexivity.
  - intros img s Hcount. apply (unref_last St P img s Hcount).
  - intros img s Hid. cbv zeta.
    rewrite (finalize_invalid_id St P img s Hid).
    cbn [events fst snd]. split.
    + unfold count_calls. rewrite filter_app, length_app. cbn.
      destruct (unmap_events St P img s) as [Hnone | [status Hone]].
      * rewrite Hnone. reflexivity.
      * rewrite Hone. reflexivity.
    + eexists. reflexivity.
Qed.

Lemma failed_construction_unwinds_through_finalize_witness :
  vaapi_image_new (Double.platform Double.failing_create)
    Double.dpy 640 480 0%nat
  = (None,
     [EvDisplayRef Double.dpy; EvLock Double.dpy;
      EvCreateImage Double.dpy VA_FOURCC_NV12 640 480
        VA_STATUS_ERROR_OPERATION_FAILED;
      EvUnlock Double.dpy; EvDisplayUnref Double.dpy; EvFree],
     1%nat)
  /\
  vaapi_image_unref (Double.platform Double.working)
    (Some Double.unmapped_image) 0%nat
  = (None,
     [EvLock Double.dpy; EvDestroyImage Double.dpy 7 VA_STATUS_SUCCESS;
      EvUnlock Double.dpy; EvDisplayUnref Double.dpy; EvFree],
     1%nat)
  /\
  count_calls is_destroy_call
    (events (vaapi_image_finalize (Double.platform Double.working)
               (blank_image Double.dpy) 0%nat)) = 0%nat.
Proof.
  pose proof (failed_construction_unwinds_through_finalize nat
                (Double.platform Double.failing_create))
    as [Hnew _].
  pose proof (failed_construction_unwinds_through_finalize nat
                (Double.platform Double.working))
    as [_ [Hunref Hfinalize]].
  split; [| split].
  - apply (Hnew Double.dpy 640 480 0%nat 0%nat 1%nat
             VA_STATUS_ERROR_OPERATION_FAILED
             (image (blank_image Double.dpy))).
    + reflexivity.
    + reflexivity.
    + vm_compute. discriminate.
    + reflexivity.
    + reflexivity.
    + vm_compute. discriminate.
  - apply (Hunref Double.unmapped_image 0%nat). reflexivity.
  - apply (Hfinalize (blank_image Double.dpy) 0%nat). reflexivity.
Defined.

(** ** The lock discipline *)

Lemma locked_calls_app (a b : list event) :
  forall held,
    locked_calls held a = true ->
    locked_calls held (a ++ b) = locked_calls false b.
Proof.
  induction a as [| e a IH]; intros held Ha.
  - cbn in *. apply negb_true_iff in Ha. subst held. reflexivity.
  - destruct e, held; cbn in Ha |- *; try discriminate Ha;
      apply IH; exact Ha.
Qed.

Section Discipline.

Variable St : Type.
Variable P : Platform St.

Lemma unmap_locked (img : VaapiImage) (s : St) :
  locked_calls false (events (_vaapi_image_unmap P img s)) = true.
Proof.
  destruct (unmap_events St P img s) as [Hnone | [status Hone]].
  - rewrite Hnone. reflexivity.
  - rewrite Hone. reflexivity.
Qed.

Lemma map_locked (img : VaapiImage) (s : St) :
  locked_calls false (events (_vaapi_image_map P img s)) = true.
Proof.
  destruct (_vaapi_image_is_mapped img) eqn:Hmapped.
  - rewrite (map_when_mapped St P img s Hmapped). reflexivity.
  - destruct (vaMapBuffer P (GST_MFX_DISPLAY_VADISPLAY P (display img))
                (VA.buf (image img)) (image_data img) s)
      as [[status p] s1] eqn:Hdriver.
    rewrite (map_when_unmapped St P img s s1 status p Hmapped Hdriver).
    reflexivity.
Qed.

Lemma finalize_locked (img : VaapiImage) (s : St) :
  locked_calls false (events (vaapi_image_finalize P img s)) = true.
Proof.
  destruct (N.eq_dec (vaapi_image_get_id (Some img)) VA_INVALID_ID)
    as [Hid | Hid].
  - rewrite (finalize_invalid_id St P img s Hid). cbn [events fst snd].
    rewrite (locked_calls_app _ _ false (unmap_locked img s)).
    reflexivity.
  - destruct (vaDestroyImage P
                (GST_MFX_DISPLAY_VADISPLAY P (display img))
                (vaapi_image_get_id (Some img))
                (final (_vaapi_image_unmap P img s)))
      as [status s2] eqn:Hdriver.
    rewrite (finalize_valid_id St P img s s2 status Hid Hdriver).
    cbn [events fst snd].
    rewrite (locked_calls_app _ _ false (unmap_locked img s)).
    destruct (vaapi_check_status status); reflexivity.
Qed.

Lemma unref_locked (pimage : option VaapiImage) (s : St) :
  locked_calls false (events (vaapi_image_unref P pimage s)) = true.
Proof.
  destruct pimage as [img |]; [| reflexivity].
  unfold vaapi_image_unref, gst_mfx_mini_object_unref.
  destruct (_ =? 0)%Z; [| reflexivity].
  cbn [finalize vaapi_image_class]. unfold bind, emit, ret.
  match goal with
  | |- context [vaapi_image_finalize P ?o s] =>
      pose proof (finalize_locked o s) as Hfin;
      destruct (vaapi_image_finalize P o s) as [[img1 evs] s1]
  end.
  cbn [events fst snd] in *.
  rewrite (locked_calls_app _ _ false Hfin). reflexivity.
Qed.

End Discipline.

(** C7. Releasing the last reference of an image whose id is valid runs,
    after the unmap of teardown, one [vaDestroyImage] on that id between
    taking and releasing the lock of the image's display; when the driver
    reports a failure a warning follows, and in both cases the display
    reference is given back and the storage freed. An image adopted from a
    foreign descriptor holds one reference and the descriptor's own, valid
    id, so that id is what its teardown destroys. *)
Theorem valid_image_is_destroyed_under_lock :
  forall St (P : Platform St),
    (forall (img : VaapiImage) (s s2 : St) (status : VAStatus),
       vaapi_image_get_id (Some img) <> VA_INVALID_ID ->
       ref_count (parent_instance img) = 1%Z ->
       let r := _vaapi_image_unmap P (drop_last_ref img) s in
       vaDestroyImage P (GST_MFX_DISPLAY_VADISPLAY P (display img))
         (vaapi_image_get_id (Some img)) (final r) = (status, s2) ->
       vaapi_image_unref P (Some img) s =
         (None,
          events r ++
          [EvLock (display img);
           EvDestroyImage (GST_MFX_DISPLAY_VADISPLAY P (display img))
             (vaapi_image_get_id (Some img)) status;
           EvUnlock (display img)] ++
          (if vaapi_check_status status then []
           else [EvWarning (vaapi_image_get_id (Some img))]) ++
          [EvDisplayUnref (display img); EvFree],
          s2) /\
       count_calls is_destroy_call (events r) = 0%nat /\
       locked_calls false (events (vaapi_image_unref P (Some img) s))
         = true)
    /\
    (forall (disp : pointer) (va : VA.VAImage) (s s1 : St),
       VA.image_id va <> VA_INVALID_ID ->
       VA.buf va <> VA_INVALID_ID ->
       slice_alloc P s = (true, s1) ->
       exists img,
         result (vaapi_image_new_with_image P disp (Some va) s) = Some img /\
         vaapi_image_get_id (Some img) = VA.image_id va /\
         vaapi_image_get_id (Some img) <> VA_INVALID_ID /\
         ref_count (parent_instance img) = 1%Z /\
         display img = disp).
Proof.
  intros St P. split.
  - intros img s s2 status Hid Hcount. cbv zeta. intros Hdriver.
    split; [| split].
    + rewrite (unref_last St P img s Hcount). cbv zeta.
      rewrite (finalize_valid_id St P (drop_last_ref img) s s2 status
                 Hid Hdriver).
      cbn [events final fst snd]. cbn [drop_last_ref set_parent_instance
                                         display image vaapi_image_get_id].
      rewrite <- !app_assoc. reflexivity.
    + unfold count_calls.
      destruct (unmap_events St P (drop_last_ref img) s)
        as [Hnone | [st Hone]].
      * rewrite Hnone. reflexivity.
      * rewrite Hone. reflexivity.
    + apply unref_locked.
  - intros disp va s s1 Hid Hbuf Halloc.
    rewrite (new_with_image_adopts St P disp va s s1 Hid Hbuf Halloc).
    eexists. split; [reflexivity |]. repeat split. exact Hid.
Qed.

Lemma valid_image_is_destroyed_under_lock_witness :
  vaapi_image_unref (Double.platform Double.failing_destroy)
    (Some Double.mapped_image) 0%nat
  = (None,
     [EvLock Double.dpy; EvUnmapBuffer Double.dpy 8 VA_STATUS_SUCCESS;
      EvUnlock Double.dpy;
      EvLock Double.dpy;
      EvDestroyImage Double.dpy 7 VA_STATUS_ERROR_OPERATION_FAILED;
      EvUnlock Double.dpy;
      EvWarning 7; EvDisplayUnref Double.dpy; EvFree],
     2%nat)
  /\
  exists img,
    result (vaapi_image_new_with_image (Double.platform Double.working)
              Double.dpy (Some Double.foreign_nv12) 0%nat) = Some img /\
    vaapi_image_get_id (Some img) = 7 /\
    vaapi_image_get_id (Some img) <> VA_INVALID_ID /\
    ref_count (parent_instance img) = 1%Z /\
    display img = Double.dpy.
Proof.
  split.
  - refine (proj1 (proj1 (valid_image_is_destroyed_under_lock nat
                            (Double.platform Double.failing_destroy))
                     Double.mapped_image 0%nat 2%nat
                     VA_STATUS_ERROR_OPERATION_FAILED _ _ _)).
    + vm_compute. discriminate.
    + reflexivity.
    + reflexivity.
  - apply (proj2 (valid_image_is_destroyed_under_lock nat
                    (Double.platform Double.working))
             Double.dpy Double.foreign_nv12 0%nat 0%nat).
    + vm_compute. discriminate.
    + vm_compute. discriminate.
    + reflexivity.
Defined.

(** ** Task role flags *)

Section RoleFlags.

Import Task.

Local Open Scope Z_scope.

Lemma task_type_eqb_eq (a b : GstMfxTaskType) :
  eqb a b = true <-> a = b.
Proof. destruct a, b; cbn; split; congruence. Qed.

Lemma testbit_type_flags (roles : list GstMfxTaskType) (n : Z) :
  Z.testbit (type_flags roles) n
    = existsb (fun t => Z.testbit (value t) n) roles.
Proof.
  induction roles as [| t roles IH]; cbn [type_flags fold_right existsb].
  - apply Z.testbit_0_l.
  - rewrite Z.lor_spec. fold (type_flags roles). rewrite IH. reflexivity.
Qed.

(** The bit of a role is set in the value of that role and of no other
    enumerator. *)
Lemma testbit_value (t u : GstMfxTaskType) :
  is_role t = true -> Z.testbit (value u) (bit t) = eqb u t.
Proof. destruct t, u; cbn; intros H; try discriminate H; reflexivity. Qed.

Lemma testbit_flags_member (roles : list GstMfxTaskType)
    (t : GstMfxTaskType) :
  is_role t = true ->
  (Z.testbit (type_flags roles) (bit t) = true <-> In t roles).
Proof.
  intros Hrole. rewrite testbit_type_flags, existsb_exists. split.
  - intros [u [Hin Hbit]]. rewrite (testbit_value t u Hrole) in Hbit.
    apply task_type_eqb_eq in Hbit. subst u. exact Hin.
  - intros Hin. exists t. split; [exact Hin |].
    rewrite (testbit_value t t Hrole). apply task_type_eqb_eq.
    reflexivity.
Qed.

Lemma existsb_same_members (f : GstMfxTaskType -> bool)
    (r1 r2 : list GstMfxTaskType) :
  (forall t, In t r1 <-> In t r2) -> existsb f r1 = existsb f r2.
Proof.
  intros Hsame. apply eq_true_iff_eq. rewrite !existsb_exists.
  split; intros [t [Hin Hf]]; exists t; split; try exact Hf;
    apply Hsame; exact Hin.
Qed.

(** C10. The enumerators have the values 0, 1, 2, 4 and 8; each of the
    four roles is a single bit and different enumerators have different
    values; two sets of roles have the same flags exactly when they have
    the same members; and the flags of a non-empty set of roles are not
    0, the value of the invalid enumerator. *)
Theorem role_flags_are_distinct_bits :
  (value GST_MFX_TASK_INVALID = 0 /\
   value GST_MFX_TASK_DECODER = 1 /\
   value GST_MFX_TASK_VPP_IN = 2 /\
   value GST_MFX_TASK_VPP_OUT = 4 /\
   value GST_MFX_TASK_ENCODER = 8) /\
  (forall t, is_role t = true -> single_bit (value t) = true) /\
  (forall t u, value t = value u -> t = u) /\
  (forall r1 r2,
     Forall (fun t => is_role t = true) r1 ->
     Forall (fun t => is_role t = true) r2 ->
     (type_flags r1 = type_flags r2 <-> (forall t, In t r1 <-> In t r2)))
  /\
  (forall r,
     r <> [] ->
     Forall (fun t => is_role t = true) r ->
     type_flags r <> 0 /\ type_flags r <> value GST_MFX_TASK_INVALID).
Proof.
  split; [| split; [| split; [| split]]].
  - repeat split.
  - intros t Hrole. destruct t; try discriminate Hrole; reflexivity.
  - intros t u Hvalue. destruct t, u; try reflexivity;
      cbn in Hvalue; discriminate Hvalue.
  - intros r1 r2 Hr1 Hr2. split.
    + intros Hflags t. rewrite Forall_forall in Hr1, Hr2. split; intros Hin.
      * apply (testbit_flags_member r2 t (Hr1 t Hin)).
        rewrite <- Hflags.
        apply (testbit_flags_member r1 t (Hr1 t Hin)). exact Hin.
      * apply (testbit_flags_member r1 t (Hr2 t Hin)).
        rewrite Hflags.
        apply (testbit_flags_member r2 t (Hr2 t Hin)). exact Hin.
    + intros Hsame. apply Z.bits_inj. intros n.
      rewrite !testbit_type_flags.
      apply existsb_same_members. exact Hsame.
  - intros r Hne Hr.
    assert (type_flags r <> 0) as Hflags.
    { destruct r as [| t r]; [congruence |].
      inversion Hr as [| t' r' Hrole Hrest]; subst.
      intros Hzero.
      assert (Z.testbit (type_flags (t :: r)) (bit t) = true) as Hbit.
      { apply (testbit_flags_member (t :: r) t Hrole). left. reflexivity. }
      rewrite Hzero, Z.testbit_0_l in Hbit. discriminate Hbit. }
    split; exact Hflags.
Qed.

Lemma role_flags_are_distinct_bits_witness :
  type_flags [GST_MFX_TASK_DECODER; GST_MFX_TASK_VPP_IN]
    = type_flags [GST_MFX_TASK_VPP_IN; GST_MFX_TASK_DECODER;
                  GST_MFX_TASK_DECODER] /\
  single_bit (value GST_MFX_TASK_VPP_OUT) = true /\
  GST_MFX_TASK_ENCODER = GST_MFX_TASK_ENCODER /\
  type_flags [GST_MFX_TASK_DECODER; GST_MFX_TASK_ENCODER] <> 0.
Proof.
  destruct role_flags_are_distinct_bits
    as [_ [Hsingle [Hdistinct [Hunique Hnonzero]]]].
  split; [| split; [| split]].
  - apply (Hunique [GST_MFX_TASK_DECODER; GST_MFX_TASK_VPP_IN]
             [GST_MFX_TASK_VPP_IN; GST_MFX_TASK_DECODER;
              GST_MFX_TASK_DECODER]).
    + repeat constructor.
    + repeat constructor.
    + intros t. cbn. tauto.
  - apply Hsingle. reflexivity.
  - apply Hdistinct. reflexivity.
  - apply (Hnonzero [GST_MFX_TASK_DECODER; GST_MFX_TASK_ENCODER]).
    + discriminate.
    + repeat constructor.
Defined.

End RoleFlags.

(** * Further properties of the image wrapper *)

(** ** Arguments the constructors refuse *)

(** X1. [vaapi_image_new] with a zero width, a zero height or a null display
    returns no object and does nothing: it neither allocates, nor takes a
    display reference, nor calls the driver. *)
Theorem new_refuses_bad_arguments :
  forall St (P : Platform St) (disp : pointer) (w h : guint) (s : St),
    w = 0 \/ h = 0 \/ disp = NULL ->
    vaapi_image_new P disp w h s = (None, [], s).
Proof.
  intros St P disp w h s Hbad.
  unfold vaapi_image_new, g_return_val_if_fail.
  destruct (0 <? w) eqn:Hw; [| reflexivity].
  destruct (0 <? h) eqn:Hh; [| reflexivity].
  destruct (disp =? NULL) eqn:Hdisp; [reflexivity |].
  apply N.ltb_lt in Hw. apply N.ltb_lt in Hh. apply N.eqb_neq in Hdisp.
  destruct Hbad as [Hbad | [Hbad | Hbad]]; [lia | lia | contradiction].
Qed.

Lemma new_refuses_bad_arguments_witness :
  vaapi_image_new (Double.platform Double.working) Double.dpy 0 480 0%nat
    = (None, [], 0%nat) /\
  vaapi_image_new (Double.platform Double.working) Double.dpy 640 0 0%nat
    = (None, [], 0%nat) /\
  vaapi_image_new (Double.platform Double.working) NULL 640 480 0%nat
    = (None, [], 0%nat).
Proof.
  split; [| split];
    apply (new_refuses_bad_arguments nat (Double.platform Double.working)).
  - left. reflexivity.
  - right. left. reflexivity.
  - right. right. reflexivity.
Defined.

(** X2. [vaapi_image_new_with_image] with a null descriptor, or with a
    descriptor whose image id or buffer id is the invalid sentinel, returns
    no object and does nothing. *)
Theorem new_with_image_refuses_bad_descriptor :
  forall St (P : Platform St) (disp : pointer) (s : St),
    vaapi_image_new_with_image P disp None s = (None, [], s) /\
    (forall va,
       VA.image_id va = VA_INVALID_ID \/ VA.buf va = VA_INVALID_ID ->
       vaapi_image_new_with_image P disp (Some va) s = (None, [], s)).
Proof.
  intros St P disp s. split; [reflexivity |].
  intros va Hbad. unfold vaapi_image_new_with_image, g_return_val_if_fail.
  destruct (VA.image_id va =? VA_INVALID_ID) eqn:Hid; [reflexivity |].
  destruct (VA.buf va =? VA_INVALID_ID) eqn:Hbuf; [reflexivity |].
  apply N.eqb_neq in Hid. apply N.eqb_neq in Hbuf.
  destruct Hbad; contradiction.
Qed.

Lemma new_with_image_refuses_bad_descriptor_witness :
  vaapi_image_new_with_image (Double.platform Double.working) Double.dpy
    (Some (VA.set_buf Double.foreign_nv12 VA_INVALID_ID)) 0%nat
    = (None, [], 0%nat).
Proof.
  apply (proj2 (new_with_image_refuses_bad_descriptor nat
                  (Double.platform Double.working) Double.dpy 0%nat)).
  right. reflexivity.
Defined.

(** X3. When the allocation of the object fails, both constructors return no
    object without taking a display reference and without a driver call. *)
Theorem constructors_on_failed_allocation :
  forall St (P : Platform St) (disp : pointer) (s s1 : St),
    slice_alloc P s = (false, s1) ->
    (forall w h,
       0 < w -> 0 < h -> disp <> NULL ->
       vaapi_image_new P disp w h s = (None, [], s1)) /\
    (forall va,
       VA.image_id va <> VA_INVALID_ID -> VA.buf va <> VA_INVALID_ID ->
       vaapi_image_new_with_image P disp (Some va) s = (None, [], s1)).
Proof.
  intros St P disp s s1 Halloc. split.
  - intros w h Hw Hh Hdisp.
    destruct (vaCreateImage P (GST_MFX_DISPLAY_VADISPLAY P disp)
                create_va_format w h (image (blank_image disp)) s1)
      as [[status va] s2] eqn:Hdriver.
    rewrite (new_runs St P disp w h s s1 s2 false status va
               Hw Hh Hdisp Halloc Hdriver).
    reflexivity.
  - intros va Hid Hbuf.
    apply N.eqb_neq in Hid. apply N.eqb_neq in Hbuf.
    unfold vaapi_image_new_with_image, g_return_val_if_fail.
    rewrite Hid, Hbuf. cbn [negb].
    unfold bind, gst_mfx_mini_object_new0. rewrite Halloc. reflexivity.
Qed.

Lemma constructors_on_failed_allocation_witness :
  vaapi_image_new (Double.platform out_of_memory) Double.dpy 640 480 0%nat
    = (None, [], 0%nat) /\
  vaapi_image_new_with_image (Double.platform out_of_memory) Double.dpy
    (Some Double.foreign_nv12) 0%nat = (None, [], 0%nat).
Proof.
  pose proof (constructors_on_failed_allocation nat
                (Double.platform out_of_memory) Double.dpy
                0%nat 0%nat eq_refl) as [Hnew Hadopt].
  split.
  - apply Hnew; [reflexivity | reflexivity | vm_compute; discriminate].
  - apply Hadopt; vm_compute; discriminate.
Defined.

(** X4. [vaapi_image_new_with_image] never calls the driver and never takes the
    display lock: whatever its arguments, it emits nothing, or the one
    display reference of the object it returns. *)
Theorem new_with_image_makes_no_driver_call :
  forall St (P : Platform St) (disp : pointer)
         (va : option VA.VAImage) (s : St),
    let r := vaapi_image_new_with_image P disp va s in
    match result r with
    | Some img => events r = [EvDisplayRef disp] /\ display img = disp
    | None => events r = []
    end.
Proof.
  intros St P disp va s. cbv zeta.
  destruct va as [va |]; [| reflexivity].
  unfold vaapi_image_new_with_image, g_return_val_if_fail.
  destruct (VA.image_id va =? VA_INVALID_ID); [reflexivity |].
  destruct (VA.buf va =? VA_INVALID_ID); [reflexivity |].
  cbn [negb]. unfold bind, gst_mfx_mini_object_new0.
  destruct (slice_alloc P s) as [[|] s1]; [| reflexivity].
  split; reflexivity.
Qed.

(** X5. The two constructors disagree on a null display: [vaapi_image_new]
    refuses it, [vaapi_image_new_with_image] does not look at its display
    argument and returns an image whose display is null. *)
Theorem constructors_disagree_on_null_display :
  forall St (P : Platform St) (w h : guint) (va : VA.VAImage) (s s1 : St),
    VA.image_id va <> VA_INVALID_ID ->
    VA.buf va <> VA_INVALID_ID ->
    slice_alloc P s = (true, s1) ->
    vaapi_image_new P NULL w h s = (None, [], s) /\
    exists img,
      result (vaapi_image_new_with_image P NULL (Some va) s) = Some img /\
      display img = NULL /\
      vaapi_image_get_id (Some img) = VA.image_id va.
Proof.
  intros St P w h va s s1 Hid Hbuf Halloc. split.
  - unfold vaapi_image_new, g_return_val_if_fail.
    destruct (0 <? w), (0 <? h); reflexivity.
  - rewrite (new_with_image_adopts St P NULL va s s1 Hid Hbuf Halloc).
    eexists. repeat split.
Qed.

Lemma constructors_disagree_on_null_display_witness :
  vaapi_image_new (Double.platform Double.working) NULL 640 480 0%nat
    = (None, [], 0%nat) /\
  exists img,
    result (vaapi_image_new_with_image (Double.platform Double.working)
              NULL (Some Double.foreign_nv12) 0%nat) = Some img /\
    display img = NULL /\
    vaapi_image_get_id (Some img) = 7.
Proof.
  apply (constructors_disagree_on_null_display nat
           (Double.platform Double.working) 640 480 Double.foreign_nv12
           0%nat 0%nat).
  - vm_compute. discriminate.
  - vm_compute. discriminate.
  - reflexivity.
Defined.

(** ** Mapping, planes and unmapping *)

(** X6. After a map whose driver call succeeds and stores a non-null
    address, the image is mapped and a plane whose index is below the plane
    count and inside the three-entry [offsets] array of the descriptor is
    found at that address plus the plane's offset. *)
Theorem map_success_exposes_planes :
  forall St (P : Platform St) (img : VaapiImage) (s s1 : St)
         (p : pointer) (plane : guint) (off : N),
    vaapi_image_is_mapped (Some img) = false ->
    vaMapBuffer P (GST_MFX_DISPLAY_VADISPLAY P (display img))
      (VA.buf (image img)) (image_data img) s
      = (VA_STATUS_SUCCESS, p, s1) ->
    p <> NULL ->
    plane < vaapi_image_get_plane_count (Some img) ->
    array_get (VA.offsets (image img)) plane = Some off ->
    exists img',
      result (vaapi_image_map P (Some img) s) = (TRUE, Some img') /\
      vaapi_image_is_mapped (Some img') = true /\
      vaapi_image_get_plane (Some img') plane = Some (p + off) /\
      vaapi_image_get_plane (Some img) plane = Some NULL.
Proof.
  intros St P img s s1 p plane off Hunmapped Hdriver Hp Hplane Hoff.
  cbn in Hunmapped, Hplane.
  exists (set_image_data img p).
  rewrite vaapi_image_map_some,
    (map_when_unmapped St P img s s1 VA_STATUS_SUCCESS p Hunmapped Hdriver).
  split; [reflexivity |].
  assert (_vaapi_image_is_mapped (set_image_data img p) = true) as Hnow.
  { apply is_mapped_iff. exact Hp. }
  split; [exact Hnow |].
  apply N.ltb_lt in Hplane.
  unfold vaapi_image_get_plane, g_return_val_if_fail.
  rewrite Hnow, Hunmapped. cbn [set_image_data image image_data].
  rewrite Hplane, Hoff. split; reflexivity.
Qed.

Lemma map_success_exposes_planes_witness :
  exists img',
    result (vaapi_image_map (Double.platform Double.working)
              (Some Double.unmapped_image) 0%nat) = (TRUE, Some img') /\
    vaapi_image_is_mapped (Some img') = true /\
    vaapi_image_get_plane (Some img') 1 = Some (0x7f0000 + 307200) /\
    vaapi_image_get_plane (Some Double.unmapped_image) 1 = Some NULL.
Proof.
  apply (map_success_exposes_planes nat (Double.platform Double.working)
           Double.unmapped_image 0%nat 1%nat 0x7f0000 1 307200).
  - reflexivity.
  - reflexivity.
  - vm_compute. discriminate.
  - reflexivity.
  - reflexivity.
Defined.

(** X7. The return value of map follows the driver status alone: when the
    driver reports success but leaves the null address in its output
    argument, map returns TRUE although the image is not mapped, every
    plane pointer is still null, and the next map calls the driver again. *)
Theorem map_success_with_null_address :
  forall St (P : Platform St) (img : VaapiImage) (s s1 : St)
         (plane : guint),
    vaapi_image_is_mapped (Some img) = false ->
    vaMapBuffer P (GST_MFX_DISPLAY_VADISPLAY P (display img))
      (VA.buf (image img)) (image_data img) s
      = (VA_STATUS_SUCCESS, NULL, s1) ->
    result (vaapi_image_map P (Some img) s) = (TRUE, Some img) /\
    vaapi_image_is_mapped (Some img) = false /\
    vaapi_image_get_plane (Some img) plane = Some NULL /\
    count_calls is_map_call (events (map_twice P (Some img) s)) = 2%nat.
Proof.
  intros St P img s s1 plane Hunmapped Hdriver. cbn in Hunmapped.
  pose proof (proj1 (not_mapped_iff img) Hunmapped) as Hdata.
  assert (set_image_data img NULL = img) as Hsame.
  { rewrite <- Hdata. apply set_image_data_same. }
  pose proof (map_when_unmapped St P img s s1 VA_STATUS_SUCCESS NULL
                Hunmapped Hdriver) as Hmap.
  rewrite Hsame in Hmap.
  split; [| split; [| split]].
  - rewrite vaapi_image_map_some, Hmap. reflexivity.
  - exact Hunmapped.
  - unfold vaapi_image_get_plane, g_return_val_if_fail.
    rewrite Hunmapped. reflexivity.
  - unfold map_twice, bind. rewrite vaapi_image_map_some, Hmap.
    cbn [result events final fst snd].
    destruct (vaMapBuffer P (GST_MFX_DISPLAY_VADISPLAY P (display img))
                (VA.buf (image img)) (image_data img) s1)
      as [[status2 p2] s2] eqn:Hdriver2.
    rewrite vaapi_image_map_some,
      (map_when_unmapped St P img s1 s2 status2 p2 Hunmapped Hdriver2).
    reflexivity.
Qed.

Lemma map_success_with_null_address_witness :
  result (vaapi_image_map (Double.platform silent_map)
            (Some Double.unmapped_image) 0%nat)
    = (TRUE, Some Double.unmapped_image) /\
  vaapi_image_is_mapped (Some Double.unmapped_image) = false /\
  vaapi_image_get_plane (Some Double.unmapped_image) 0 = Some NULL /\
  count_calls is_map_call
    (events (map_twice (Double.platform silent_map)
               (Some Double.unmapped_image) 0%nat)) = 2%nat.
Proof.
  apply (map_success_with_null_address nat (Double.platform silent_map)
           Double.unmapped_image 0%nat 1%nat 0); reflexivity.
Defined.

(** X8. After an unmap whose driver call succeeds the image is unmapped, every
    plane pointer is null, and nothing but the mapped address has
    changed. *)
Theorem unmap_success_withdraws_planes :
  forall St (P : Platform St) (img : VaapiImage) (s s1 : St),
    vaapi_image_is_mapped (Some img) = true ->
    vaUnmapBuffer P (GST_MFX_DISPLAY_VADISPLAY P (display img))
      (VA.buf (image img)) s = (VA_STATUS_SUCCESS, s1) ->
    exists img',
      result (vaapi_image_unmap P (Some img) s) = (TRUE, Some img') /\
      vaapi_image_is_mapped (Some img') = false /\
      (forall plane, vaapi_image_get_plane (Some img') plane = Some NULL) /\
      static_part (Some img') = static_part (Some img).
Proof.
  intros St P img s s1 Hmapped Hdriver. cbn in Hmapped.
  exists (set_image_data img NULL).
  rewrite vaapi_image_unmap_some,
    (unmap_when_mapped St P img s s1 VA_STATUS_SUCCESS Hmapped Hdriver).
  repeat split.
Qed.

Lemma unmap_success_withdraws_planes_witness :
  exists img',
    result (vaapi_image_unmap (Double.platform Double.working)
              (Some Double.mapped_image) 0%nat) = (TRUE, Some img') /\
    vaapi_image_is_mapped (Some img') = false /\
    (forall plane, vaapi_image_get_plane (Some img') plane = Some NULL) /\
    static_part (Some img') = static_part (Some Double.mapped_image).
Proof.
  apply (unmap_success_withdraws_planes nat
           (Double.platform Double.working) Double.mapped_image
           0%nat 1%nat); reflexivity.
Defined.

(** X9. Map followed by unmap, both driver calls succeeding, gives back the
    unmapped image exactly as it was, after one driver map and one driver
    unmap on the image's buffer, each under the display lock. *)
Theorem map_then_unmap_restores_image :
  forall St (P : Platform St) (img : VaapiImage) (s s1 s2 : St)
         (p : pointer),
    vaapi_image_is_mapped (Some img) = false ->
    vaMapBuffer P (GST_MFX_DISPLAY_VADISPLAY P (display img))
      (VA.buf (image img)) (image_data img) s
      = (VA_STATUS_SUCCESS, p, s1) ->
    p <> NULL ->
    vaUnmapBuffer P (GST_MFX_DISPLAY_VADISPLAY P (display img))
      (VA.buf (image img)) s1 = (VA_STATUS_SUCCESS, s2) ->
    run_ops P [OpMap; OpUnmap] (Some img) s =
      (Some img,
       [EvLock (display img);
        EvMapBuffer (GST_MFX_DISPLAY_VADISPLAY P (display img))
          (VA.buf (image img)) VA_STATUS_SUCCESS;
        EvUnlock (display img);
        EvLock (display img);
        EvUnmapBuffer (GST_MFX_DISPLAY_VADISPLAY P (display img))
          (VA.buf (image img)) VA_STATUS_SUCCESS;
        EvUnlock (display img)],
       s2).
Proof.
  intros St P img s s1 s2 p Hunmapped Hmap Hp Hunmap. cbn in Hunmapped.
  assert (_vaapi_image_is_mapped (set_image_data img p) = true) as Hnow.
  { apply is_mapped_iff. exact Hp. }
  assert (set_image_data (set_image_data img p) NULL = img) as Hback.
  { apply not_mapped_iff in Hunmapped. rewrite <- Hunmapped.
    destruct img; reflexivity. }
  cbn [run_ops]. unfold bind.
  rewrite vaapi_image_map_some,
    (map_when_unmapped St P img s s1 VA_STATUS_SUCCESS p Hunmapped Hmap).
  cbn [result events final fst snd].
  rewrite vaapi_image_unmap_some,
    (unmap_when_mapped St P (set_image_data img p) s1 s2 VA_STATUS_SUCCESS
       Hnow Hunmap).
  cbn [result events final fst snd vaapi_check_status Z.eqb
         VA_STATUS_SUCCESS].
  rewrite Hback. reflexivity.
Qed.

Lemma map_then_unmap_restores_image_witness :
  run_ops (Double.platform Double.working) [OpMap; OpUnmap]
    (Some Double.unmapped_image) 0%nat
  = (Some Double.unmapped_image,
     [EvLock Double.dpy; EvMapBuffer Double.dpy 8 VA_STATUS_SUCCESS;
      EvUnlock Double.dpy;
      EvLock Double.dpy; EvUnmapBuffer Double.dpy 8 VA_STATUS_SUCCESS;
      EvUnlock Double.dpy],
     2%nat).
Proof.
  apply (map_then_unmap_restores_image nat
           (Double.platform Double.working) Double.unmapped_image
           0%nat 1%nat 2%nat 0x7f0000).
  - reflexivity.
  - reflexivity.
  - vm_compute. discriminate.
  - reflexivity.
Defined.

(** ** Sequences of map and unmap calls *)

Lemma count_calls_app (f : event -> bool) (a b : list event) :
  count_calls f (a ++ b) = (count_calls f a + count_calls f b)%nat.
Proof. unfold count_calls. rewrite filter_app, length_app. reflexivity. Qed.

Section Sequences.

Variable St : Type.
Variable P : Platform St.

(** One map call: what it leaves alone and what it emits. *)
Lemma map_step (pimage : option VaapiImage) (s : St) :
  let r := vaapi_image_map P pimage s in
  static_part (snd (result r)) = static_part pimage /\
  locked_calls false (events r) = true /\
  (count_calls is_map_call (events r) <= 1)%nat /\
  count_calls is_unmap_call (events r) = 0%nat /\
  count_calls is_create_call (events r) = 0%nat /\
  count_calls is_destroy_call (events r) = 0%nat /\
  count_calls is_refcount_event (events r) = 0%nat.
Proof.
  destruct pimage as [img |]; [| cbn; repeat split; lia].
  cbv zeta. rewrite vaapi_image_map_some. cbv zeta.
  destruct (_vaapi_image_is_mapped img) eqn:Hmapped.
  - rewrite (map_when_mapped St P img s Hmapped). cbn. repeat split; lia.
  - destruct (vaMapBuffer P (GST_MFX_DISPLAY_VADISPLAY P (display img))
                (VA.buf (image img)) (image_data img) s)
      as [[status p] s1] eqn:Hdriver.
    rewrite (map_when_unmapped St P img s s1 status p Hmapped Hdriver).
    cbn. repeat split; lia.
Qed.

Lemma unmap_step (pimage : option VaapiImage) (s : St) :
  let r := vaapi_image_unmap P pimage s in
  static_part (snd (result r)) = static_part pimage /\
  locked_calls false (events r) = true /\
  count_calls is_map_call (events r) = 0%nat /\
  (count_calls is_unmap_call (events r) <= 1)%nat /\
  count_calls is_create_call (events r) = 0%nat /\
  count_calls is_destroy_call (events r) = 0%nat /\
  count_calls is_refcount_event (events r) = 0%nat.
Proof.
  destruct pimage as [img |]; [| cbn; repeat split; lia].
  cbv zeta. rewrite vaapi_image_unmap_some. cbv zeta.
  destruct (_vaapi_image_is_mapped img) eqn:Hmapped.
  - destruct (vaUnmapBuffer P (GST_MFX_DISPLAY_VADISPLAY P (display img))
                (VA.buf (image img)) s) as [status s1] eqn:Hdriver.
    rewrite (unmap_when_mapped St P img s s1 status Hmapped Hdriver).
    cbn. destruct (vaapi_check_status status); repeat split; lia.
  - rewrite (unmap_when_unmapped St P img s Hmapped). cbn.
    repeat split; lia.
Qed.

Lemma run_ops_cons (op : image_op) (ops : list image_op)
    (pimage : option VaapiImage) (s : St) :
  run_ops P (op :: ops) pimage s =
    let r1 := match op with
              | OpMap => vaapi_image_map P pimage s
              | OpUnmap => vaapi_image_unmap P pimage s
              end in
    let r2 := run_ops P ops (snd (result r1)) (final r1) in
    (result r2, events r1 ++ events r2, final r2).
Proof.
  cbn [run_ops]. unfold bind.
  destruct op.
  - destruct (vaapi_image_map P pimage s) as [[[ok pimage1] evs1] s1].
    cbn [result events final fst snd].
    destruct (run_ops P ops pimage1 s1) as [[pimage2 evs2] s2].
    reflexivity.
  - destruct (vaapi_image_unmap P pimage s) as [[[ok pimage1] evs1] s1].
    cbn [result events final fst snd].
    destruct (run_ops P ops pimage1 s1) as [[pimage2 evs2] s2].
    reflexivity.
Qed.

Lemma run_ops_app (a b : list image_op) :
  forall (pimage : option VaapiImage) (s : St),
    run_ops P (a ++ b) pimage s =
      let r1 := run_ops P a pimage s in
      let r2 := run_ops P b (result r1) (final r1) in
      (result r2, events r1 ++ events r2, final r2).
Proof.
  induction a as [| op a IH]; intros pimage s.
  - cbn. destruct (run_ops P b pimage s) as [[pimage2 evs2] s2].
    reflexivity.
  - rewrite <- app_comm_cons, !run_ops_cons. cbv zeta. rewrite IH.
    cbv zeta. cbn [result events final fst snd].
    rewrite app_assoc. reflexivity.
Qed.

End Sequences.

Lemma static_part_some (pimage : option VaapiImage) (img : VaapiImage) :
  static_part pimage = static_part (Some img) ->
  exists img', pimage = Some img' /\
    parent_instance img' = parent_instance img /\
    display img' = display img /\
    internal_format img' = internal_format img /\
    width img' = width img /\ height img' = height img /\
    image img' = image img.
Proof.
  destruct pimage as [img' |]; cbn; intros H; [| discriminate H].
  inversion H. exists img'. repeat split; assumption.
Qed.

Lemma map_unmap_sequences_keep_static :
  forall St (P : Platform St) (ops : list image_op)
         (pimage : option VaapiImage) (s : St),
    static_part (result (run_ops P ops pimage s)) = static_part pimage.
Proof.
  intros St P ops. induction ops as [| op ops IH]; intros pimage s.
  - reflexivity.
  - rewrite run_ops_cons. cbv zeta. cbn [result fst].
    destruct op.
    + destruct (map_step St P pimage s) as [Hstep _].
      rewrite <- Hstep. apply IH.
    + destruct (unmap_step St P pimage s) as [Hstep _].
      rewrite <- Hstep. apply IH.
Qed.

Lemma map_unmap_sequences_keep_object :
  forall St (P : Platform St) (ops : list image_op)
         (img : VaapiImage) (s : St),
    exists img', result (run_ops P ops (Some img) s) = Some img'.
Proof.
  intros St P ops img s.
  destruct (static_part_some _ img
              (map_unmap_sequences_keep_static St P ops (Some img) s))
    as [img' [Hresult _]].
  exists img'. exact Hresult.
Qed.

(** X10. No sequence of map and unmap calls changes what the accessors other
    than [vaapi_image_is_mapped] and [vaapi_image_get_plane] return: the id,
    format, width, height, plane count, data size, pitches, offsets and the
    descriptor stay as they were, and so does the reference count. *)
Theorem map_unmap_sequences_keep_accessors :
  forall St (P : Platform St) (ops : list image_op)
         (pimage : option VaapiImage) (s : St),
    let after := result (run_ops P ops pimage s) in
    static_part after = static_part pimage /\
    vaapi_image_get_id after = vaapi_image_get_id pimage /\
    vaapi_image_get_format after = vaapi_image_get_format pimage /\
    vaapi_image_get_width after = vaapi_image_get_width pimage /\
    vaapi_image_get_height after = vaapi_image_get_height pimage /\
    vaapi_image_get_plane_count after = vaapi_image_get_plane_count pimage /\
    vaapi_image_get_data_size after = vaapi_image_get_data_size pimage /\
    (forall plane,
       vaapi_image_get_pitch after plane = vaapi_image_get_pitch pimage plane
       /\
       vaapi_image_get_offset after plane
         = vaapi_image_get_offset pimage plane) /\
    (forall va_image,
       vaapi_image_get_image after va_image
         = vaapi_image_get_image pimage va_image) /\
    (forall pwidth pheight,
       vaapi_image_get_size after pwidth pheight
         = vaapi_image_get_size pimage pwidth pheight).
Proof.
  intros St P ops pimage s. cbv zeta.
  pose proof (map_unmap_sequences_keep_static St P ops pimage s)
    as Hstatic.
  split; [exact Hstatic |].
  destruct pimage as [img |].
  - destruct (static_part_some _ img Hstatic)
      as [img' [-> [_ [_ [Hformat [Hwidth [Hheight Himage]]]]]]].
    cbn. rewrite Hformat, Hwidth, Hheight, Himage. repeat split.
  - destruct (result (run_ops P ops None s)) as [img' |];
      [discriminate Hstatic |].
    repeat split.
Qed.


(** X12. With a driver whose map calls succeed with a non-null address and whose
    unmap calls succeed, the mapped state after any sequence of calls is
    that of the last call: mapped after a map, unmapped after an unmap. *)
Theorem reliable_driver_state_follows_last_call :
  forall St (P : Platform St) (ops : list image_op) (op : image_op)
         (img : VaapiImage) (s : St),
    reliable P ->
    exists img',
      result (run_ops P (ops ++ [op]) (Some img) s) = Some img' /\
      vaapi_image_is_mapped (Some img') = is_op_map op.
Proof.
  intros St P ops op img s [Hmaps Hunmaps].
  rewrite run_ops_app. cbv zeta. cbn [result fst].
  destruct (map_unmap_sequences_keep_object St P ops img s)
    as [img1 Hresult].
  rewrite Hresult. set (s1 := final (run_ops P ops (Some img) s)).
  rewrite run_ops_cons. cbv zeta. cbn [run_ops ret result fst].
  destruct op; cbn [is_op_map].
  - rewrite vaapi_image_map_some. cbv zeta.
    destruct (_vaapi_image_is_mapped img1) eqn:Hmapped.
    + rewrite (map_when_mapped St P img1 s1 Hmapped).
      exists img1. split; [reflexivity | exact Hmapped].
    + destruct (vaMapBuffer P (GST_MFX_DISPLAY_VADISPLAY P (display img1))
                  (VA.buf (image img1)) (image_data img1) s1)
        as [[status p] s2] eqn:Hdriver.
      rewrite (map_when_unmapped St P img1 s1 s2 status p Hmapped Hdriver).
      exists (set_image_data img1 p). split; [reflexivity |].
      apply is_mapped_iff. cbn [set_image_data image_data].
      pose proof (Hmaps (GST_MFX_DISPLAY_VADISPLAY P (display img1))
                    (VA.buf (image img1)) (image_data img1) s1) as [_ Hp].
      rewrite Hdriver in Hp. exact Hp.
  - rewrite vaapi_image_unmap_some. cbv zeta.
    destruct (_vaapi_image_is_mapped img1) eqn:Hmapped.
    + destruct (vaUnmapBuffer P
                  (GST_MFX_DISPLAY_VADISPLAY P (display img1))
                  (VA.buf (image img1)) s1) as [status s2] eqn:Hdriver.
      rewrite (unmap_when_mapped St P img1 s1 s2 status Hmapped Hdriver).
      pose proof (Hunmaps (GST_MFX_DISPLAY_VADISPLAY P (display img1))
                    (VA.buf (image img1)) s1) as Hstatus.
      rewrite Hdriver in Hstatus. cbn in Hstatus. subst status.
      exists (set_image_data img1 NULL). split; reflexivity.
    + rewrite (unmap_when_unmapped St P img1 s1 Hmapped).
      exists img1. split; [reflexivity | exact Hmapped].
Qed.

Lemma reliable_driver_state_follows_last_call_witness :
  reliable (Double.platform Double.working) /\
  exists img',
    result (run_ops (Double.platform Double.working)
              ([OpMap; OpUnmap; OpUnmap] ++ [OpMap])
              (Some Double.unmapped_image) 0%nat) = Some img' /\
    vaapi_image_is_mapped (Some img') = is_op_map OpMap.
Proof.
  assert (reliable (Double.platform Double.working)) as Hreliable.
  { split.
    - intros dpy b cur s. split; [reflexivity |].
      vm_compute. discriminate.
    - intros dpy b s. reflexivity. }
  split; [exact Hreliable |].
  apply (reliable_driver_state_follows_last_call nat
           (Double.platform Double.working) [OpMap; OpUnmap; OpUnmap]
           OpMap Double.unmapped_image 0%nat Hreliable).
Defined.

(** ** Teardown *)


Lemma finalize_display_refs :
  forall St (P : Platform St) (img : VaapiImage) (s : St),
    let evs := events (vaapi_image_finalize P img s) in
    count_calls (is_display_ref (display img)) evs = 0%nat /\
    count_calls (is_display_unref (display img)) evs = 1%nat.
Proof.
  intros St P img s. cbv zeta.
  assert (count_calls (is_display_ref (display img))
            (events (_vaapi_image_unmap P img s)) = 0%nat /\
          count_calls (is_display_unref (display img))
            (events (_vaapi_image_unmap P img s)) = 0%nat) as [Href Hunref].
  { destruct (unmap_events St P img s) as [Hnone | [status Hone]].
    - rewrite Hnone. split; reflexivity.
    - rewrite Hone. split; reflexivity. }
  assert (count_calls (is_display_unref (display img))
            [EvDisplayUnref (display img)] = 1%nat) as Hlast.
  { unfold count_calls. cbn. rewrite N.eqb_refl. reflexivity. }
  destruct (N.eq_dec (vaapi_image_get_id (Some img)) VA_INVALID_ID)
    as [Hid | Hid].
  - rewrite (finalize_invalid_id St P img s Hid). cbn [events fst snd].
    rewrite !count_calls_app, Href, Hunref, Hlast. split; reflexivity.
  - destruct (vaDestroyImage P (GST_MFX_DISPLAY_VADISPLAY P (display img))
                (vaapi_image_get_id (Some img))
                (final (_vaapi_image_unmap P img s)))
      as [status s2] eqn:Hdriver.
    rewrite (finalize_valid_id St P img s s2 status Hid Hdriver).
    cbn [events fst snd].
    rewrite !count_calls_app, Href, Hunref, Hlast.
    destruct (vaapi_check_status status); split; reflexivity.
Qed.

(** ** Construction *)

(** X14. [vaapi_image_create] makes one driver call, for an NV12 image of the
    requested size, between taking and releasing the lock of the image's
    display. It never touches the mapped address, the display or the
    reference count; it records the size and the NV12 format when the
    driver succeeds and leaves size and format as they were when it
    fails. *)
Theorem create_records_geometry_on_success_only :
  forall St (P : Platform St) (img : VaapiImage) (w h : guint) (s : St),
    let r := vaapi_image_create P img w h s in
    let img' := snd (result r) in
    (exists status,
       events r = [EvLock (display img);
                   EvCreateImage (GST_MFX_DISPLAY_VADISPLAY P (display img))
                     VA_FOURCC_NV12 w h status;
                   EvUnlock (display img)] /\
       fst (result r) = (status =? VA_STATUS_SUCCESS)%Z) /\
    image_data img' = image_data img /\
    display img' = display img /\
    parent_instance img' = parent_instance img /\
    (if fst (result r)
     then width img' = w /\ height img' = h /\
          internal_format img' = GST_VIDEO_FORMAT_NV12
     else width img' = width img /\ height img' = height img /\
          internal_format img' = internal_format img).
Proof.
  intros St P img w h s. cbv zeta.
  destruct (vaCreateImage P (GST_MFX_DISPLAY_VADISPLAY P (display img))
              create_va_format w h (image img) s)
    as [[status va] s1] eqn:Hdriver.
  rewrite (create_runs_driver St P img w h s s1 status va Hdriver).
  cbn [result events fst snd].
  split.
  - exists status. split; [reflexivity |].
    destruct (status =? VA_STATUS_SUCCESS)%Z; reflexivity.
  - destruct (status =? VA_STATUS_SUCCESS)%Z; cbn; repeat split.
Qed.

(** X15. [vaapi_image_new] leaves the display reference count balanced when it
    returns no object, and holds exactly one reference of the display it
    was given when it returns an image. *)
Theorem new_balances_display_references :
  forall St (P : Platform St) (disp : pointer) (w h : guint) (s : St),
    let r := vaapi_image_new P disp w h s in
    match result r with
    | Some img =>
        display img = disp /\
        count_calls (is_display_ref disp) (events r) = 1%nat /\
        count_calls (is_display_unref disp) (events r) = 0%nat
    | None =>
        count_calls (is_display_ref disp) (events r)
          = count_calls (is_display_unref disp) (events r)
    end.
Proof.
  intros St P disp w h s. cbv zeta.
  destruct (0 <? w) eqn:Hw;
    [| unfold vaapi_image_new, g_return_val_if_fail; rewrite Hw;
       reflexivity].
  destruct (0 <? h) eqn:Hh;
    [| unfold vaapi_image_new, g_return_val_if_fail; rewrite Hw, Hh;
       reflexivity].
  destruct (disp =? NULL) eqn:Hdisp;
    [unfold vaapi_image_new, g_return_val_if_fail; rewrite Hw, Hh, Hdisp;
     reflexivity |].
  apply N.ltb_lt in Hw. apply N.ltb_lt in Hh. apply N.eqb_neq in Hdisp.
  destruct (slice_alloc P s) as [ok s1] eqn:Halloc.
  destruct (vaCreateImage P (GST_MFX_DISPLAY_VADISPLAY P disp)
              create_va_format w h (image (blank_image disp)) s1)
    as [[status va] s2] eqn:Hdriver.
  rewrite (new_runs St P disp w h s s1 s2 ok status va
             Hw Hh Hdisp Halloc Hdriver).
  destruct ok; [| reflexivity].
  destruct (status =? VA_STATUS_SUCCESS)%Z.
  - cbn [result events fst snd display]. unfold count_calls. cbn.
    rewrite N.eqb_refl. repeat split.
  - cbv zeta. cbn [result events fst snd].
    rewrite (unref_last St P (set_image (blank_image disp) va) s2 eq_refl).
    cbv zeta. cbn [events fst snd].
    pose proof (finalize_display_refs St P
                  (drop_last_ref (set_image (blank_image disp) va)) s2)
      as [Href Hunref].
    cbv zeta in Href, Hunref.
    cbn [drop_last_ref set_parent_instance set_image blank_image display]
      in Href, Hunref.
    rewrite !count_calls_app, Href, Hunref.
    unfold count_calls. cbn. rewrite N.eqb_refl. reflexivity.
Qed.

(** ** The lock discipline of the public operations *)


(** ** Plane accessors and the descriptor arrays *)

Lemma array_get_in_bounds (a : list N) (i : guint) :
  (N.to_nat i < length a)%nat -> exists x, array_get a i = Some x.
Proof.
  intros Hi. unfold array_get.
  destruct (nth_error a (N.to_nat i)) as [x |] eqn:Hget.
  - exists x. reflexivity.
  - apply nth_error_None in Hget. lia.
Qed.

Lemma array_get_out_of_bounds (a : list N) (i : guint) :
  (length a <= N.to_nat i)%nat -> array_get a i = None.
Proof. intros Hi. apply nth_error_None. exact Hi. Qed.

(** X17. On an image whose descriptor has three-entry arrays and at most three
    planes, the plane accessors never read outside the arrays, for any
    plane index and whether the image is mapped or not. *)
Theorem plane_accessors_stay_in_bounds :
  forall (img : VaapiImage) (plane : guint),
    descriptor_fits (image img) = true ->
    exists pitch off p,
      vaapi_image_get_pitch (Some img) plane = Some pitch /\
      vaapi_image_get_offset (Some img) plane = Some off /\
      vaapi_image_get_plane (Some img) plane = Some p.
Proof.
  intros img plane Hfits. unfold descriptor_fits in Hfits.
  apply andb_true_iff in Hfits. destruct Hfits as [Hfits Hplanes].
  apply andb_true_iff in Hfits. destruct Hfits as [Hpitches Hoffsets].
  apply Nat.eqb_eq in Hpitches. apply Nat.eqb_eq in Hoffsets.
  apply N.leb_le in Hplanes.
  unfold vaapi_image_get_pitch, vaapi_image_get_offset,
    vaapi_image_get_plane, g_return_val_if_fail.
  destruct (plane <? VA.num_planes (image img)) eqn:Hplane.
  - apply N.ltb_lt in Hplane.
    destruct (array_get_in_bounds (VA.pitches (image img)) plane)
      as [pitch Hpitch]; [lia |].
    destruct (array_get_in_bounds (VA.offsets (image img)) plane)
      as [off Hoff]; [lia |].
    rewrite Hpitch, Hoff.
    destruct (_vaapi_image_is_mapped img); repeat eexists.
  - destruct (_vaapi_image_is_mapped img); repeat eexists.
Qed.

Lemma plane_accessors_stay_in_bounds_witness :
  exists pitch off p,
    vaapi_image_get_pitch (Some Double.mapped_image) 1 = Some pitch /\
    vaapi_image_get_offset (Some Double.mapped_image) 1 = Some off /\
    vaapi_image_get_plane (Some Double.mapped_image) 1 = Some p.
Proof.
  apply (plane_accessors_stay_in_bounds Double.mapped_image 1).
  reflexivity.
Defined.

(** X18. The accessors check the plane index against the plane count of the
    descriptor only: when the descriptor announces more than three planes,
    an index from 3 up to the plane count passes the check and the read
    falls outside the three-entry arrays. *)
Theorem plane_count_above_three_is_not_guarded :
  forall (img : VaapiImage) (plane : guint),
    length (VA.pitches (image img)) = 3%nat ->
    length (VA.offsets (image img)) = 3%nat ->
    3 <= plane ->
    plane < vaapi_image_get_plane_count (Some img) ->
    vaapi_image_get_pitch (Some img) plane = None /\
    vaapi_image_get_offset (Some img) plane = None /\
    (vaapi_image_is_mapped (Some img) = true ->
     vaapi_image_get_plane (Some img) plane = None).
Proof.
  intros img plane Hpitches Hoffsets Hlow Hplane.
  cbn in Hplane. apply N.ltb_lt in Hplane.
  unfold vaapi_image_get_pitch, vaapi_image_get_offset,
    vaapi_image_get_plane, g_return_val_if_fail.
  rewrite Hplane.
  rewrite (array_get_out_of_bounds (VA.pitches (image img)) plane)
    by lia.
  rewrite (array_get_out_of_bounds (VA.offsets (image img)) plane)
    by lia.
  repeat split. cbn. intros Hmapped. rewrite Hmapped. reflexivity.
Qed.

Lemma plane_count_above_three_is_not_guarded_witness :
  vaapi_image_get_pitch (Some four_plane_image) 3 = None /\
  vaapi_image_get_offset (Some four_plane_image) 3 = None /\
  (vaapi_image_is_mapped (Some four_plane_image) = true ->
   vaapi_image_get_plane (Some four_plane_image) 3 = None).
Proof.
  apply (plane_count_above_three_is_not_guarded four_plane_image 3).
  - reflexivity.
  - reflexivity.
  - vm_compute. discriminate.
  - reflexivity.
Defined.

(** ** From creation to teardown *)

(** X19. An image returned by [vaapi_image_new] whose descriptor received a
    valid id from the driver is torn down, on the release of its one
    reference, by one [vaDestroyImage] on that id under the display lock
    and without any unmap call; the display reference taken at creation is
    given back and the storage freed. *)
Theorem created_image_is_destroyed_with_its_id :
  forall St (P : Platform St) (disp : pointer) (w h : guint)
         (s s1 s2 s3 : St) (va : VA.VAImage) (status : VAStatus),
    0 < w -> 0 < h -> disp <> NULL ->
    slice_alloc P s = (true, s1) ->
    vaCreateImage P (GST_MFX_DISPLAY_VADISPLAY P disp) create_va_format w h
      (image (blank_image disp)) s1 = (VA_STATUS_SUCCESS, va, s2) ->
    VA.image_id va <> VA_INVALID_ID ->
    vaDestroyImage P (GST_MFX_DISPLAY_VADISPLAY P disp) (VA.image_id va) s2
      = (status, s3) ->
    final (vaapi_image_new P disp w h s) = s2 /\
    vaapi_image_unref P (result (vaapi_image_new P disp w h s)) s2 =
      (None,
       [EvLock disp;
        EvDestroyImage (GST_MFX_DISPLAY_VADISPLAY P disp) (VA.image_id va)
          status;
        EvUnlock disp] ++
       (if vaapi_check_status status then []
        else [EvWarning (VA.image_id va)]) ++
       [EvDisplayUnref disp; EvFree],
       s3).
Proof.
  intros St P disp w h s s1 s2 s3 va status
         Hw Hh Hdisp Halloc Hcreate Hid Hdestroy.
  rewrite (new_runs St P disp w h s s1 s2 true VA_STATUS_SUCCESS va
             Hw Hh Hdisp Halloc Hcreate).
  cbn [Z.eqb VA_STATUS_SUCCESS result final fst snd].
  split; [reflexivity |].
  match goal with
  | |- vaapi_image_unref P (Some ?img) s2 = _ =>
      rewrite (unref_last St P img s2 eq_refl); cbv zeta;
      assert (_vaapi_image_unmap P (drop_last_ref img) s2
                = ((TRUE, drop_last_ref img), [], s2)) as Hunmap
        by (apply unmap_when_unmapped; reflexivity);
      assert (vaapi_image_get_id (Some (drop_last_ref img))
                <> VA_INVALID_ID) as Hid' by exact Hid;
      pose proof (finalize_valid_id St P (drop_last_ref img) s2 s3 status
                    Hid') as Hfinalize
  end.
  cbv zeta in Hfinalize. rewrite Hunmap in Hfinalize.
  cbn [events final result fst snd drop_last_ref set_parent_instance
         display image vaapi_image_get_id app] in Hfinalize.
  rewrite (Hfinalize Hdestroy).
  cbn [events final fst snd]. rewrite <- ?app_assoc.
  destruct (vaapi_check_status status); reflexivity.
Qed.

Lemma created_image_is_destroyed_with_its_id_witness :
  final (vaapi_image_new (Double.platform Double.failing_destroy)
           Double.dpy 640 480 0%nat) = 1%nat /\
  vaapi_image_unref (Double.platform Double.failing_destroy)
    (result (vaapi_image_new (Double.platform Double.failing_destroy)
               Double.dpy 640 480 0%nat)) 1%nat
  = (None,
     [EvLock Double.dpy;
      EvDestroyImage Double.dpy 1 VA_STATUS_ERROR_OPERATION_FAILED;
      EvUnlock Double.dpy; EvWarning 1;
      EvDisplayUnref Double.dpy; EvFree],
     2%nat).
Proof.
  apply (created_image_is_destroyed_with_its_id nat
           (Double.platform Double.failing_destroy) Double.dpy 640 480
           0%nat 0%nat 1%nat 2%nat
           (Double.describe create_va_format 640 480 2 0)
           VA_STATUS_ERROR_OPERATION_FAILED).
  - reflexivity.
  - reflexivity.
  - vm_compute. discriminate.
  - reflexivity.
  - reflexivity.
  - vm_compute. discriminate.
  - reflexivity.
Defined.
